(** * Remote-MCP: the HTTP receiver and the stdio forwarder

    A shallow embedding of the two adapters of the repository,

    - [HTTPAdapter] (the HTTP receiver: [handle], [handleMethod],
      [sendError], [sendJSON], [setCORSHeaders], [createHandler]) and
    - [HTTPMCPClient] (the stdio forwarder: [sendRequest] and the nine
      handlers registered by [setupHandlers]),

    together with the properties of their JSON-RPC envelopes.

    The adapters are asynchronous TypeScript methods.  Each one is embedded
    as a computation in a state-and-exception monad: the state holds the
    objects the method mutates (the [ServerResponse], the request counter)
    and a record of the calls it makes to its collaborators (the router,
    [fetch], the error callback); an exception is a JavaScript [throw] or a
    rejected promise.  [await] sequences computations.  What the JavaScript
    engine provides ([JSON.parse], [JSON.stringify], the text of a number)
    is a parameter, [JSEngine]: every theorem holds for every engine. *)

From stdpp Require Import gmap strings.
From Stdlib Require Import ZArith List String Ascii Bool Floats Lia.
Import ListNotations.

#[local] Set Warnings "-register-all".
#[local] Open Scope string_scope.
#[local] Open Scope Z_scope.

(** ** JavaScript values, exceptions and the engine *)

Module JS.

(** A run-time value as [JSON.parse] produces it, plus [undefined], which
    is what reading a missing property gives.  A number is an IEEE 754
    binary64, as in JavaScript.  An object is the list of its own
    properties in insertion order, the order [JSON.stringify] prints. *)
Inductive JSValue : Type :=
| JUndefined
| JNull
| JBool (b : bool)
| JNum (x : float)
| JStr (s : string)
| JArr (elements : list JSValue)
| JObj (properties : list (string * JSValue)).

(** What a [throw] carries: an instance of [Error] (also [TypeError],
    [SyntaxError]) with its [message], or any other value. *)
Inductive Thrown : Type :=
| JSError (message : string)
| JSThrown (v : JSValue).

(** The outcome of evaluating an expression or awaiting a promise. *)
Inductive Completion (A : Type) : Type :=
| Normal (a : A)
| Throw (e : Thrown).
Arguments Normal {A} a.
Arguments Throw {A} e.

(** The services of the JavaScript engine the adapters call. *)
Record JSEngine : Type := {
  (** [JSON.parse(text)]; [Throw] is its [SyntaxError]. *)
  JSON_parse : string -> Completion JSValue;
  (** [JSON.stringify(value)] on an object. *)
  JSON_stringify : JSValue -> string;
  (** [Number.prototype.toString]. *)
  Number_toString : float -> string;
  (** The message of the [TypeError] raised by reading property [k] of
      [null] or [undefined]. *)
  TypeError_message : JSValue -> string -> string;
  (** The message of the [TypeError] raised by converting to a primitive
      value an object that has none. *)
  ToPrimitive_message : string
}.
Existing Class JSEngine.

(** [o[k]] on the own properties of an object. *)
Fixpoint obj_get (o : list (string * JSValue)) (k : string) : JSValue :=
  match o with
  | [] => JUndefined
  | (k', v) :: rest => if String.eqb k' k then v else obj_get rest k
  end.

(** [v.k], for the property names the adapters read: [jsonrpc], [method],
    [id], [params], [name], [arguments], [uri], [error], [result], [code]
    and [message].  None of them is defined on the prototype of an object,
    array, string, number or boolean, so only an object's own properties
    can answer; on [null] and [undefined] the read throws. *)
Definition get_prop (E : JSEngine) (v : JSValue) (k : string) : Completion JSValue :=
  match v with
  | JUndefined | JNull => Throw (JSError (TypeError_message E v k))
  | JObj o => Normal (obj_get o k)
  | _ => Normal JUndefined
  end.

(** [ToBoolean]: the values [if (v)] and [!v] treat as true. *)
Definition truthy (v : JSValue) : bool :=
  match v with
  | JUndefined | JNull => false
  | JBool b => b
  | JNum x => negb (PrimFloat.eqb x 0 || PrimFloat.is_nan x)
  | JStr s => negb (String.eqb s "")
  | JArr _ | JObj _ => true
  end.

(** [v === s] for a string literal [s]. *)
Definition strict_eq_string (v : JSValue) (s : string) : bool :=
  match v with
  | JStr t => String.eqb t s
  | _ => false
  end.

(** [v ?? d]. *)
Definition nullish (v d : JSValue) : JSValue :=
  match v with
  | JUndefined | JNull => d
  | _ => v
  end.

(** [Array.prototype.join(",")] on the texts of the elements. *)
Fixpoint join_comma (l : list string) : string :=
  match l with
  | [] => ""
  | [s] => s
  | s :: rest => s ++ "," ++ join_comma rest
  end.

(** [o.hasOwnProperty(k)]. *)
Definition has_own (o : list (string * JSValue)) (k : string) : bool :=
  existsb (fun property => String.eqb (fst property) k) o.

(** [ToString], as a template literal applies it to [${v}].

    An object is converted by [ToPrimitive] with the hint [string], which
    calls [toString] and then [valueOf] if they are functions.  No value
    of [JSValue] is a function: an own property [toString] hides
    [Object.prototype.toString] and is not called, [valueOf], own or
    inherited, does not give a primitive value, and the conversion throws
    a [TypeError]; without an own [toString] the inherited one gives
    [[object Object]].  An array is converted by [Array.prototype.join],
    which converts its elements in order, [null] and [undefined] to the
    empty text, and throws where an element does. *)
Fixpoint ToString (E : JSEngine) (v : JSValue) : Completion string :=
  match v with
  | JUndefined => Normal "undefined"
  | JNull => Normal "null"
  | JBool true => Normal "true"
  | JBool false => Normal "false"
  | JNum x => Normal (Number_toString E x)
  | JStr s => Normal s
  | JArr l =>
      match
        (fix elements (l : list JSValue) : Completion (list string) :=
           match l with
           | [] => Normal []
           | e :: rest =>
               match match e with
                     | JUndefined | JNull => Normal ""
                     | _ => ToString E e
                     end with
               | Throw t => Throw t
               | Normal s =>
                   match elements rest with
                   | Throw t => Throw t
                   | Normal texts => Normal (s :: texts)
                   end
               end
           end) l
      with
      | Throw t => Throw t
      | Normal texts => Normal (join_comma texts)
      end
  | JObj o =>
      if has_own o "toString" then Throw (JSError (ToPrimitive_message E))
      else Normal "[object Object]"
  end.

(** [error instanceof Error ? error.message : fallback]. *)
Definition message_or (e : Thrown) (fallback : string) : string :=
  match e with
  | JSError m => m
  | JSThrown _ => fallback
  end.

(** *** The monad of an asynchronous method

    [M W A] is a method body that returns an [A] or throws, over the
    mutable state [W].  What was written before a [throw] stays written. *)
Definition M (W A : Type) : Type := W -> Completion A * W.

Definition ret {W A} (a : A) : M W A := fun w => (Normal a, w).

Definition bind {W A B} (c : M W A) (k : A -> M W B) : M W B :=
  fun w => match c w with
           | (Normal a, w') => k a w'
           | (Throw e, w') => (Throw e, w')
           end.

Definition throw {W A} (e : Thrown) : M W A := fun w => (Throw e, w).

(** [try { body } catch (error) { handler }]. *)
Definition try_catch {W A} (body : M W A) (handler : Thrown -> M W A) : M W A :=
  fun w => match body w with
           | (Normal a, w') => (Normal a, w')
           | (Throw e, w') => handler e w'
           end.

(** The completion of an expression, as a step of a method. *)
Definition lift {W A} (c : Completion A) : M W A := fun w => (c, w).

Definition modify {W} (f : W -> W) : M W unit := fun w => (Normal tt, f w).

End JS.

Export JS.

Declare Scope js_scope.
Delimit Scope js_scope with js.
Notation "x <- c ;; k" := (bind c (fun x => k))
  (at level 100, c at next level, right associativity) : js_scope.
Notation "c ;; k" := (bind c (fun _ => k))
  (at level 100, right associativity) : js_scope.

#[local] Open Scope js_scope.

(** ** The HTTP receiver: [HTTPAdapter] *)

Module Receiver.

(** The [IncomingMessage] of Node's [http]: the request line and the body
    as the ['data'] events deliver it before ['end'].  [chunks] holds the
    text [chunk.toString()] of each chunk, which is what [handle] appends
    to the body; how a [Buffer] decodes to its text is not modelled. *)
Record IncomingMessage : Type := {
  url : string;
  method : string;
  chunks : list string
}.

(** The [ServerResponse] of Node's [http] as far as the adapter drives it.
    [finished] is the body [res.end] has sent, once it has. *)
Record ServerResponse : Type := {
  statusCode : Z;
  headers : gmap string string;
  finished : option string
}.

(** Node keeps header names case-insensitively, under their lower-case
    spelling. *)
Definition lower_ascii (c : ascii) : ascii :=
  let n := N_of_ascii c in
  if ((65 <=? n) && (n <=? 90))%N then ascii_of_N (n + 32) else c.

Fixpoint toLowerCase (s : string) : string :=
  match s with
  | EmptyString => EmptyString
  | String c rest => String (lower_ascii c) (toLowerCase rest)
  end.

(** [res.getHeader(name)]. *)
Definition getHeader (res : ServerResponse) (name : string) : option string :=
  headers res !! toLowerCase name.

(** [res.statusCode = code]. *)
Definition set_statusCode (code : Z) : M ServerResponse unit :=
  modify (fun res =>
    {| statusCode := code; headers := headers res; finished := finished res |}).

(** [res.setHeader(name, value)]: Node refuses it once the head is sent. *)
Definition setHeader (name value : string) : M ServerResponse unit :=
  fun res =>
    match finished res with
    | Some _ =>
        (Throw (JSError "Cannot set headers after they are sent to the client"), res)
    | None =>
        (Normal tt,
         {| statusCode := statusCode res;
            headers := <[toLowerCase name := value]> (headers res);
            finished := None |})
    end.

(** [res.end(data)]; [res.end()] is [end_ ""].  A second [end] writes
    nothing. *)
Definition end_ (data : string) : M ServerResponse unit :=
  modify (fun res =>
    match finished res with
    | Some _ => res
    | None =>
        {| statusCode := statusCode res; headers := headers res;
           finished := Some data |}
    end).

(** One call of an operation of the router, with its arguments. *)
Inductive RouterCall : Type :=
| Call_initialize (params : JSValue)
| Call_listTools
| Call_callTool (name args : JSValue)
| Call_listResources
| Call_readResource (uri : JSValue)
| Call_subscribeToResource (uri : JSValue)
| Call_unsubscribeFromResource (uri : JSValue)
| Call_listPrompts
| Call_getPrompt (name args : JSValue).

(** Modelled from the spec: the router collaborator ([MCPRouter] of
    [./router.js], whose source is outside the adapter).  Its nine
    operations, each of which returns a value or fails, over the router's
    own state [RS]. *)
Record MCPRouter (RS : Type) : Type := {
  initialize : JSValue -> M RS JSValue;
  listTools : M RS JSValue;
  callTool : JSValue -> JSValue -> M RS JSValue;
  listResources : M RS JSValue;
  readResource : JSValue -> M RS JSValue;
  subscribeToResource : JSValue -> M RS JSValue;
  unsubscribeFromResource : JSValue -> M RS JSValue;
  listPrompts : M RS JSValue;
  getPrompt : JSValue -> JSValue -> M RS JSValue
}.
Arguments initialize {RS}.
Arguments listTools {RS}.
Arguments callTool {RS}.
Arguments listResources {RS}.
Arguments readResource {RS}.
Arguments subscribeToResource {RS}.
Arguments unsubscribeFromResource {RS}.
Arguments listPrompts {RS}.
Arguments getPrompt {RS}.

(** The operation a call names. *)
Definition perform {RS} (router : MCPRouter RS) (c : RouterCall) : M RS JSValue :=
  match c with
  | Call_initialize params => initialize router params
  | Call_listTools => listTools router
  | Call_callTool name args => callTool router name args
  | Call_listResources => listResources router
  | Call_readResource uri => readResource router uri
  | Call_subscribeToResource uri => subscribeToResource router uri
  | Call_unsubscribeFromResource uri => unsubscribeFromResource router uri
  | Call_listPrompts => listPrompts router
  | Call_getPrompt name args => getPrompt router name args
  end.

Record HTTPAdapterOptions (RS : Type) : Type := {
  options_router : MCPRouter RS;
  options_path : option string;
  options_cors : option bool
}.
Arguments options_router {RS}.
Arguments options_path {RS}.
Arguments options_cors {RS}.

Record HTTPAdapter (RS : Type) : Type := {
  router : MCPRouter RS;
  path : string;
  cors : bool
}.
Arguments router {RS}.
Arguments path {RS}.
Arguments cors {RS}.

(** [constructor(options)]: [options.path || '/mcp/http'] and
    [options.cors ?? true]. *)
Definition new_HTTPAdapter {RS} (options : HTTPAdapterOptions RS) : HTTPAdapter RS :=
  {| router := options_router options;
     path := match options_path options with
             | Some p => if String.eqb p "" then "/mcp/http" else p
             | None => "/mcp/http"
             end;
     cors := match options_cors options with
             | Some b => b
             | None => true
             end |}.

(** What one call of [handle] can change: the response it is given, and
    the router, whose state it advances and whose calls are recorded,
    oldest first. *)
Record World (RS : Type) : Type := {
  res : ServerResponse;
  router_state : RS;
  router_calls : list RouterCall
}.
Arguments res {RS}.
Arguments router_state {RS}.
Arguments router_calls {RS}.

Section Adapter.

Context {E : JSEngine} {RS : Type}.
Variable this : HTTPAdapter RS.

(** A step on the response. *)
Definition on_res {A} (c : M ServerResponse A) : M (World RS) A :=
  fun w =>
    let '(out, res') := c (res w) in
    (out, {| res := res'; router_state := router_state w;
             router_calls := router_calls w |}).

(** [await this.router.op(args)]. *)
Definition invoke (c : RouterCall) : M (World RS) JSValue :=
  fun w =>
    let '(out, s') := perform (router this) c (router_state w) in
    (out, {| res := res w; router_state := s';
             router_calls := router_calls w ++ [c] |}).

Definition setCORSHeaders : M (World RS) unit :=
  if cors this then
    on_res (setHeader "Access-Control-Allow-Origin" "*") ;;
    on_res (setHeader "Access-Control-Allow-Methods" "POST, OPTIONS") ;;
    on_res (setHeader "Access-Control-Allow-Headers" "Content-Type")
  else ret tt.

Definition sendJSON (statusCode : Z) (data : JSValue) : M (World RS) unit :=
  on_res (set_statusCode statusCode) ;;
  on_res (setHeader "Content-Type" "application/json") ;;
  on_res (end_ (JSON_stringify E data)).

(** The object literal [{ jsonrpc: '2.0', id, error: { code, message, data } }]. *)
Definition error_response (id : JSValue) (code : float) (message : string)
    (data : JSValue) : JSValue :=
  JObj [("jsonrpc", JStr "2.0"); ("id", id);
        ("error", JObj [("code", JNum code); ("message", JStr message);
                        ("data", data)])].

(** [sendError(res, id, code, message, data)]; a call without [data]
    passes [JUndefined]. *)
Definition sendError (id : JSValue) (code : float) (message : string)
    (data : JSValue) : M (World RS) unit :=
  sendJSON 200 (error_response id code message data).

(** The object literal [{ jsonrpc: '2.0', id, result }]. *)
Definition success_response (id result : JSValue) : JSValue :=
  JObj [("jsonrpc", JStr "2.0"); ("id", id); ("result", result)].

(** [handleMethod(method, params)]: the [switch] compares with [===]. *)
Definition handleMethod (method params : JSValue) : M (World RS) JSValue :=
  if strict_eq_string method "initialize" then
    invoke (Call_initialize params)
  else if strict_eq_string method "tools/list" then
    tools <- invoke Call_listTools ;;
    ret (JObj [("tools", tools)])
  else if strict_eq_string method "tools/call" then
    name <- lift (get_prop E params "name") ;;
    args <- lift (get_prop E params "arguments") ;;
    invoke (Call_callTool name args)
  else if strict_eq_string method "resources/list" then
    resources <- invoke Call_listResources ;;
    ret (JObj [("resources", resources)])
  else if strict_eq_string method "resources/read" then
    uri <- lift (get_prop E params "uri") ;;
    contents <- invoke (Call_readResource uri) ;;
    ret (JObj [("contents", contents)])
  else if strict_eq_string method "resources/subscribe" then
    uri <- lift (get_prop E params "uri") ;;
    invoke (Call_subscribeToResource uri) ;;
    ret (JObj [])
  else if strict_eq_string method "resources/unsubscribe" then
    uri <- lift (get_prop E params "uri") ;;
    invoke (Call_unsubscribeFromResource uri) ;;
    ret (JObj [])
  else if strict_eq_string method "prompts/list" then
    prompts <- invoke Call_listPrompts ;;
    ret (JObj [("prompts", prompts)])
  else if strict_eq_string method "prompts/get" then
    name <- lift (get_prop E params "name") ;;
    args <- lift (get_prop E params "arguments") ;;
    messages <- invoke (Call_getPrompt name args) ;;
    ret (JObj [("messages", messages)])
  else
    name <- lift (ToString E method) ;;
    throw (JSError ("Method not found: " ++ name)).

(** The body [handle] has read when ['end'] fires: the chunks in order. *)
Definition read_body (req : IncomingMessage) : string :=
  fold_left String.append (chunks req) "".

(** [jsonrpcRequest.jsonrpc !== '2.0' || !jsonrpcRequest.method]. *)
Definition invalid_request (jsonrpcRequest : JSValue) : M (World RS) bool :=
  jsonrpc <- lift (get_prop E jsonrpcRequest "jsonrpc") ;;
  if negb (strict_eq_string jsonrpc "2.0") then ret true
  else
    method <- lift (get_prop E jsonrpcRequest "method") ;;
    ret (negb (truthy method)).

(** [jsonrpcRequest.id ?? null]. *)
Definition request_id (jsonrpcRequest : JSValue) : M (World RS) JSValue :=
  id <- lift (get_prop E jsonrpcRequest "id") ;;
  ret (nullish id JNull).

(** [handle(req, res)]. *)
Definition handle (req : IncomingMessage) : M (World RS) bool :=
  if negb (String.eqb (url req) (path this)) then ret false
  else
    setCORSHeaders ;;
    if String.eqb (method req) "OPTIONS" then
      on_res (set_statusCode 204) ;;
      on_res (end_ "") ;;
      ret true
    else if negb (String.eqb (method req) "POST") then
      sendError JNull (-32600)%float "Invalid Request: Only POST is supported"
        JUndefined ;;
      ret true
    else
      let body := read_body req in
      match JSON_parse E body with
      | Throw _ =>
          sendError JNull (-32700)%float "Parse error" JUndefined ;;
          ret true
      | Normal jsonrpcRequest =>
          invalid <- invalid_request jsonrpcRequest ;;
          if invalid then
            id <- request_id jsonrpcRequest ;;
            sendError id (-32600)%float "Invalid Request" JUndefined ;;
            ret true
          else
            try_catch
              (method <- lift (get_prop E jsonrpcRequest "method") ;;
               params <- lift (get_prop E jsonrpcRequest "params") ;;
               result <- handleMethod method params ;;
               id <- request_id jsonrpcRequest ;;
               sendJSON 200 (success_response id result))
              (fun error =>
                 let errorMessage := message_or error "Unknown error" in
                 id <- request_id jsonrpcRequest ;;
                 sendError id (-32603)%float "Internal error" (JStr errorMessage)) ;;
            ret true
      end.

(** The handler of [createHandler()]. *)
Definition createHandler (req : IncomingMessage) : M (World RS) unit :=
  handled <- handle req ;;
  if negb handled then
    on_res (set_statusCode 404) ;;
    on_res (end_ "Not Found")
  else ret tt.

End Adapter.

End Receiver.

(** ** The stdio forwarder: [HTTPMCPClient] *)

Module Forwarder.

(** The second argument of [fetch(url, init)], as [sendRequest] builds it.
    [init_headers] is the object given as [headers]: it maps the header
    names, as they are spelled, to their values. *)
Record RequestInit : Type := {
  init_method : string;
  init_headers : gmap string string;
  init_body : string
}.

(** The [Response] of [fetch], as far as [sendRequest] reads it:
    [response.ok], [response.status] and the text [response.json()]
    parses. *)
Record Response : Type := {
  ok : bool;
  status : float;
  text : string
}.

(** One call of [fetch]. *)
Record FetchCall : Type := {
  fetch_url : string;
  fetch_init : RequestInit
}.

(** The function stored in [options.onError]: the default one the
    constructor installs, or one of the user's.  Of the user's function
    only the calls are observed; it returns, as its type
    [(method, error) => void] says. *)
Inductive ErrorCallback : Type :=
| Default_onError
| User_onError.

(** [HTTPMCPClientOptions].  [headers] is optional.  For [onError], the
    outer [None] is an options object without the property, and [Some None]
    one that holds [undefined] under it. *)
Record HTTPMCPClientOptions : Type := {
  remoteUrl : string;
  headers : option (gmap string string);
  onError : option (option ErrorCallback)
}.

(** [this.options] of a client: the options after the constructor. *)
Record HTTPMCPClient : Type := {
  options_remoteUrl : string;
  options_headers : option (gmap string string);
  options_onError : option ErrorCallback
}.

(** [constructor(options)]: [this.options = { onError: default, ...options }];
    a property of [options] replaces the default one. *)
Definition new_HTTPMCPClient (options : HTTPMCPClientOptions) : HTTPMCPClient :=
  {| options_remoteUrl := remoteUrl options;
     options_headers := headers options;
     options_onError := match onError options with
                        | None => Some Default_onError
                        | Some configured => configured
                        end |}.

(** A message of [server.sendLoggingMessage]. *)
Record LoggingMessage : Type := {
  level : string;
  data : string
}.

(** What the forwarder can change: its counter, the network behind
    [fetch] (state [NS]), and what it has done so far, oldest first: the
    calls of [fetch], the calls of [options.onError] with their two
    arguments, and the logging messages sent through the server. *)
Record World (NS : Type) : Type := {
  requestId : Z;
  network : NS;
  fetch_calls : list FetchCall;
  onError_calls : list (string * Thrown);
  logging_messages : list LoggingMessage
}.
Arguments requestId {NS}.
Arguments network {NS}.
Arguments fetch_calls {NS}.
Arguments onError_calls {NS}.
Arguments logging_messages {NS}.

(** [private requestId = 0] on a client that has done nothing yet. *)
Definition new_World {NS} (net : NS) : World NS :=
  {| requestId := 0; network := net; fetch_calls := [];
     onError_calls := []; logging_messages := [] |}.

(** [n + 1] on the number [n] of a counter that started at 0.  The
    counter is a JavaScript number, a binary64, and [+] rounds to the
    nearest one, ties to even: below [2^53] the sum of an integer and 1 is
    exact, and [2^53 + 1], half way between [2^53] and [2^53 + 2], rounds
    back to [2^53].  The counter is kept as the integer it holds. *)
Definition js_increment (n : Z) : Z :=
  if n <? 2 ^ 53 then n + 1 else n.

(** The number that holds an integer; exact up to [2^53] in magnitude. *)
Definition number_of_Z (z : Z) : float :=
  if z <? 0 then PrimFloat.opp (PrimFloat.of_uint63 (Uint63.of_Z (- z)))
  else PrimFloat.of_uint63 (Uint63.of_Z z).

(** [{ ...target, ...source }] on header objects: every property of
    [source] is written over [target]; spreading [undefined] writes
    nothing. *)
Definition spread (target : gmap string string)
    (source : option (gmap string string)) : gmap string string :=
  match source with
  | Some properties => properties ∪ target
  | None => target
  end.

(** The inbound request the stream-framed server hands to a handler. *)
Record Request : Type := {
  request_method : string;
  request_params : JSValue
}.

Section Client.

Context {E : JSEngine} {NS : Type}.

(** The global [fetch]: it returns a response or rejects, and moves the
    network on. *)
Variable fetch : string -> RequestInit -> M NS Response.

Variable this : HTTPMCPClient.

(** [++this.requestId]. *)
Definition increment_requestId : M (World NS) Z :=
  fun w =>
    let id := js_increment (requestId w) in
    (Normal id,
     {| requestId := id; network := network w; fetch_calls := fetch_calls w;
        onError_calls := onError_calls w;
        logging_messages := logging_messages w |}).

(** [await fetch(url, init)]. *)
Definition call_fetch (url : string) (init : RequestInit) : M (World NS) Response :=
  fun w =>
    let '(out, net') := fetch url init (network w) in
    (out,
     {| requestId := requestId w; network := net';
        fetch_calls := fetch_calls w ++ [{| fetch_url := url; fetch_init := init |}];
        onError_calls := onError_calls w;
        logging_messages := logging_messages w |}).

(** The object literal [{ jsonrpc: '2.0', id, method, params }]. *)
Definition request_object (id : Z) (method : string) (params : JSValue) : JSValue :=
  JObj [("jsonrpc", JStr "2.0"); ("id", JNum (number_of_Z id));
        ("method", JStr method); ("params", params)].

(** The object literal
    [{ 'Content-Type': 'application/json', ...this.options.headers }]. *)
Definition request_headers : gmap string string :=
  spread {[ "Content-Type" := "application/json" ]} (options_headers this).

(** [sendRequest(method, params)]. *)
Definition sendRequest (method : string) (params : JSValue) : M (World NS) JSValue :=
  id <- increment_requestId ;;
  let request := request_object id method params in
  response <- call_fetch (options_remoteUrl this)
                {| init_method := "POST";
                   init_headers := request_headers;
                   init_body := JSON_stringify E request |} ;;
  if negb (ok response) then
    throw (JSError ("HTTP error! status: " ++ Number_toString E (status response)))
  else
    jsonResponse <- lift (JSON_parse E (text response)) ;;
    error <- lift (get_prop E jsonResponse "error") ;;
    if truthy error then
      code <- lift (get_prop E error "code") ;;
      code_text <- lift (ToString E code) ;;
      message <- lift (get_prop E error "message") ;;
      message_text <- lift (ToString E message) ;;
      throw (JSError ("JSON-RPC error " ++ code_text ++ ": " ++ message_text))
    else
      lift (get_prop E jsonResponse "result").

(** [this.server.sendLoggingMessage(message)]. *)
Definition sendLoggingMessage (message : LoggingMessage) : M (World NS) unit :=
  modify (fun w =>
    {| requestId := requestId w; network := network w;
       fetch_calls := fetch_calls w; onError_calls := onError_calls w;
       logging_messages := logging_messages w ++ [message] |}).

(** The default [onError] of the constructor: it logs
    [`${method}: ${error.message}`] at level ['error']. *)
Definition default_onError (method : string) (error : Thrown) : M (World NS) unit :=
  message <- match error with
             | JSError m => ret m
             | JSThrown v =>
                 m <- lift (get_prop E v "message") ;;
                 lift (ToString E m)
             end ;;
  sendLoggingMessage {| level := "error"; data := method ++ ": " ++ message |}.

(** [this.options.onError?.(method, error)]: nothing is called when the
    property holds [undefined]. *)
Definition call_onError (method : string) (error : Thrown) : M (World NS) unit :=
  match options_onError this with
  | None => ret tt
  | Some callback =>
      modify (fun w =>
        {| requestId := requestId w; network := network w;
           fetch_calls := fetch_calls w;
           onError_calls := onError_calls w ++ [(method, error)];
           logging_messages := logging_messages w |}) ;;
      match callback with
      | Default_onError => default_onError method error
      | User_onError => ret tt
      end
  end.

(** A handler of the stream-framed server. *)
Definition Handler : Type := Request -> M (World NS) JSValue.

(** The body the nine handlers of [setupHandlers] share; they differ in
    the method name they pass to [sendRequest]:
    [try { return await this.sendRequest(name, request.params) }
     catch (error) { this.options.onError?.(request.method, error); throw error }]. *)
Definition forwarding_handler (name : string) : Handler :=
  fun request =>
    try_catch
      (sendRequest name (request_params request))
      (fun error =>
         call_onError (request_method request) error ;;
         throw error).

(** Modelled from the spec: the stream-framed server collaborator (the
    [Server] of the protocol SDK and its request schemas).  It keeps one
    handler per method name; a schema stands for the method name it
    accepts. *)
Definition InitializeRequestSchema : string := "initialize".
Definition ListToolsRequestSchema : string := "tools/list".
Definition CallToolRequestSchema : string := "tools/call".
Definition ListResourcesRequestSchema : string := "resources/list".
Definition ReadResourceRequestSchema : string := "resources/read".
Definition SubscribeRequestSchema : string := "resources/subscribe".
Definition UnsubscribeRequestSchema : string := "resources/unsubscribe".
Definition ListPromptsRequestSchema : string := "prompts/list".
Definition GetPromptRequestSchema : string := "prompts/get".

(** Modelled from the spec: [server.setRequestHandler(schema, handler)]
    of the stream-framed server collaborator. *)
Definition setRequestHandler (schema : string) (handler : Handler)
    (handlers : gmap string Handler) : gmap string Handler :=
  <[schema := handler]> handlers.

(** Modelled from the spec: how the stream-framed server collaborator
    delivers an inbound call: to the handler registered for its method. *)
Definition deliver (handlers : gmap string Handler) (request : Request)
    : M (World NS) JSValue :=
  match handlers !! request_method request with
  | Some handler => handler request
  | None => throw (JSError "Method not found")
  end.

(** [setupHandlers()], on the handler table of [this.server]. *)
Definition setupHandlers (handlers : gmap string Handler) : gmap string Handler :=
  let handlers := setRequestHandler InitializeRequestSchema
                    (forwarding_handler "initialize") handlers in
  let handlers := setRequestHandler ListToolsRequestSchema
                    (forwarding_handler "tools/list") handlers in
  let handlers := setRequestHandler CallToolRequestSchema
                    (forwarding_handler "tools/call") handlers in
  let handlers := setRequestHandler ListResourcesRequestSchema
                    (forwarding_handler "resources/list") handlers in
  let handlers := setRequestHandler ReadResourceRequestSchema
                    (forwarding_handler "resources/read") handlers in
  let handlers := setRequestHandler SubscribeRequestSchema
                    (forwarding_handler "resources/subscribe") handlers in
  let handlers := setRequestHandler UnsubscribeRequestSchema
                    (forwarding_handler "resources/unsubscribe") handlers in
  let handlers := setRequestHandler ListPromptsRequestSchema
                    (forwarding_handler "prompts/list") handlers in
  setRequestHandler GetPromptRequestSchema
    (forwarding_handler "prompts/get") handlers.

End Client.

End Forwarder.

(** ** A small engine

    [SmallEngine.engine] runs the adapters on concrete texts: the scenarios
    of the protocol and the instances below.  It reads and prints the JSON
    texts whose numbers are integer literals and whose strings need no
    [\u] escape, and rejects the others; it is not the engine of a
    JavaScript runtime, and no theorem depends on it. *)

Module SmallEngine.

Definition is_whitespace (c : ascii) : bool :=
  let n := N_of_ascii c in
  ((n =? 32) || (n =? 9) || (n =? 10) || (n =? 13))%N.

Definition is_digit (c : ascii) : bool :=
  let n := N_of_ascii c in ((48 <=? n) && (n <=? 57))%N.

Fixpoint skip_whitespace (s : string) : string :=
  match s with
  | String c rest => if is_whitespace c then skip_whitespace rest else s
  | EmptyString => s
  end.

(** [expect word s]: [s] without its prefix [word]. *)
Fixpoint expect (word s : string) : option string :=
  match word, s with
  | EmptyString, _ => Some s
  | String a word', String b s' =>
      if Ascii.eqb a b then expect word' s' else None
  | String _ _, EmptyString => None
  end.

(** The double quote, character 34. *)
Definition dquote : ascii := ascii_of_N 34.

(** The character an escape [\e] of a string literal stands for. *)
Definition unescape (e : ascii) : option ascii :=
  if Ascii.eqb e dquote then Some dquote
  else if Ascii.eqb e "\" then Some "\"%char
  else if Ascii.eqb e "/" then Some "/"%char
  else if Ascii.eqb e "b" then Some (ascii_of_N 8)
  else if Ascii.eqb e "f" then Some (ascii_of_N 12)
  else if Ascii.eqb e "n" then Some (ascii_of_N 10)
  else if Ascii.eqb e "r" then Some (ascii_of_N 13)
  else if Ascii.eqb e "t" then Some (ascii_of_N 9)
  else None.

(** The characters of a string literal after its opening quote, and the
    rest of the text after its closing quote. *)
Fixpoint read_string (s : string) : option (string * string) :=
  match s with
  | EmptyString => None
  | String c rest =>
      if Ascii.eqb c dquote then Some (EmptyString, rest)
      else if Ascii.eqb c "\" then
        match rest with
        | String e rest' =>
            match unescape e, read_string rest' with
            | Some u, Some (chars, after) => Some (String u chars, after)
            | _, _ => None
            end
        | EmptyString => None
        end
      else if (N_of_ascii c <? 32)%N then None
      else
        match read_string rest with
        | Some (chars, after) => Some (String c chars, after)
        | None => None
        end
  end.

(** The digits at the head of a text, their value after [acc], how many
    they are, and the rest. *)
Fixpoint read_digits (s : string) (acc : Z) (count : nat) : Z * nat * string :=
  match s with
  | String c rest =>
      if is_digit c
      then read_digits rest (10 * acc + (Z.of_N (N_of_ascii c) - 48)) (S count)
      else (acc, count, s)
  | EmptyString => (acc, count, s)
  end.

(** An integer literal of at most fifteen digits, without a fraction or
    an exponent. *)
Definition read_integer (s : string) : option (float * string) :=
  let '(negative, digits) :=
    match s with
    | String "-" rest => (true, rest)
    | _ => (false, s)
    end in
  let leading_zero :=
    match digits with
    | String "0" (String d _) => is_digit d
    | _ => false
    end in
  let '(value, count, rest) := read_digits digits 0 0%nat in
  let continues :=
    match rest with
    | String c _ => (Ascii.eqb c "." || Ascii.eqb c "e" || Ascii.eqb c "E")%bool
    | EmptyString => false
    end in
  if (Nat.eqb count 0 || Nat.ltb 15 count || leading_zero || continues)%bool
  then None
  else
    let magnitude := PrimFloat.of_uint63 (Uint63.of_Z value) in
    Some (if negative then PrimFloat.opp magnitude else magnitude, rest).

(** [o[k] = v] on the own properties of an object. *)
Fixpoint obj_set (o : list (string * JSValue)) (k : string) (v : JSValue)
    : list (string * JSValue) :=
  match o with
  | [] => [(k, v)]
  | (k', v') :: rest =>
      if String.eqb k' k then (k', v) :: rest else (k', v') :: obj_set rest k v
  end.

(** A value, the elements of an array after its bracket, and the members
    of an object after its brace; [fuel] bounds the nesting and the
    number of items. *)
Fixpoint read_value (fuel : nat) (s : string) : option (JSValue * string) :=
  match fuel with
  | O => None
  | S fuel' =>
      match skip_whitespace s with
      | EmptyString => None
      | String c rest as t =>
          if Ascii.eqb c "n" then option_map (pair JNull) (expect "null" t)
          else if Ascii.eqb c "t" then
            option_map (pair (JBool true)) (expect "true" t)
          else if Ascii.eqb c "f" then
            option_map (pair (JBool false)) (expect "false" t)
          else if Ascii.eqb c dquote then
            match read_string rest with
            | Some (chars, after) => Some (JStr chars, after)
            | None => None
            end
          else if Ascii.eqb c "[" then
            match skip_whitespace rest with
            | String "]" after => Some (JArr [], after)
            | _ =>
                match read_elements fuel' rest with
                | Some (elements, after) => Some (JArr elements, after)
                | None => None
                end
            end
          else if Ascii.eqb c "{" then
            match skip_whitespace rest with
            | String "}" after => Some (JObj [], after)
            | _ =>
                match read_members fuel' rest [] with
                | Some (members, after) => Some (JObj members, after)
                | None => None
                end
            end
          else
            match read_integer t with
            | Some (x, after) => Some (JNum x, after)
            | None => None
            end
      end
  end
with read_elements (fuel : nat) (s : string) : option (list JSValue * string) :=
  match fuel with
  | O => None
  | S fuel' =>
      match read_value fuel' s with
      | Some (v, after) =>
          match skip_whitespace after with
          | String "," rest =>
              match read_elements fuel' rest with
              | Some (vs, after') => Some (v :: vs, after')
              | None => None
              end
          | String "]" rest => Some ([v], rest)
          | _ => None
          end
      | None => None
      end
  end
with read_members (fuel : nat) (s : string) (acc : list (string * JSValue))
    : option (list (string * JSValue) * string) :=
  match fuel with
  | O => None
  | S fuel' =>
      match skip_whitespace s with
      | EmptyString => None
      | String c rest =>
          if Ascii.eqb c dquote then
            match read_string rest with
            | Some (key, after_key) =>
                match skip_whitespace after_key with
                | String ":" rest' =>
                    match read_value fuel' rest' with
                    | Some (v, after) =>
                        let acc' := obj_set acc key v in
                        match skip_whitespace after with
                        | String "," rest'' => read_members fuel' rest'' acc'
                        | String "}" rest'' => Some (acc', rest'')
                        | _ => None
                        end
                    | None => None
                    end
                | _ => None
                end
            | None => None
            end
          else None
      end
  end.

(** [JSON.parse(text)]: one value, and nothing but white space after it. *)
Definition parse (text : string) : Completion JSValue :=
  match read_value (2 * String.length text + 2) text with
  | Some (v, after) =>
      match skip_whitespace after with
      | EmptyString => Normal v
      | _ => Throw (JSError "Unexpected non-whitespace character after JSON")
      end
  | None => Throw (JSError "Unexpected token in JSON")
  end.

(** The integer a number holds, if it holds one. *)
Definition integer_of_number (x : float) : option Z :=
  match Prim2SF x with
  | S754_zero _ => Some 0
  | S754_finite negative m e =>
      let magnitude :=
        if 0 <=? e then Some (Z.pos m * 2 ^ e)
        else if Z.pos m mod 2 ^ (- e) =? 0 then Some (Z.pos m / 2 ^ (- e))
        else None in
      option_map (fun z => if negative then - z else z) magnitude
  | _ => None
  end.

(** The decimal digits of a natural number, the last digit first in
    [acc]; [fuel] bounds their number. *)
Fixpoint digits_of (fuel : nat) (n : Z) (acc : string) : string :=
  match fuel with
  | O => acc
  | S fuel' =>
      let acc' := String (ascii_of_N (Z.to_N (48 + n mod 10))) acc in
      if n <? 10 then acc' else digits_of fuel' (n / 10) acc'
  end.

(** The text of a number that holds an integer below [10^21]; the other
    numbers are outside what this engine prints, and get the text of
    [NaN]. *)
Definition toString (x : float) : string :=
  match integer_of_number x with
  | Some z =>
      if Z.abs z <? 10 ^ 21 then
        (if z <? 0 then "-" else "") ++ digits_of 22 (Z.abs z) ""
      else "NaN"
  | None => "NaN"
  end.

Definition hex_digit (n : N) : ascii :=
  if (n <? 10)%N then ascii_of_N (48 + n) else ascii_of_N (87 + n).

(** The characters of a string literal of JSON and its closing quote. *)
Fixpoint quote_chars (s : string) : string :=
  match s with
  | EmptyString => String dquote ""
  | String c rest =>
      let n := N_of_ascii c in
      (if (n =? 34)%N then String "\" (String dquote "")
       else if (n =? 92)%N then "\\"
       else if (n =? 8)%N then "\b"
       else if (n =? 12)%N then "\f"
       else if (n =? 10)%N then "\n"
       else if (n =? 13)%N then "\r"
       else if (n =? 9)%N then "\t"
       else if (n <? 32)%N then
         "\u00" ++ String (hex_digit (n / 16)) (String (hex_digit (n mod 16)) "")
       else String c "") ++ quote_chars rest
  end.

Definition quote (s : string) : string := String dquote (quote_chars s).

(** [JSON.stringify(value)]: a property that holds [undefined] is left
    out, and an element that does is printed [null]. *)
Fixpoint stringify (v : JSValue) : string :=
  match v with
  | JUndefined => "null"
  | JNull => "null"
  | JBool true => "true"
  | JBool false => "false"
  | JNum x => if PrimFloat.is_finite x then toString x else "null"
  | JStr s => quote s
  | JArr l => "[" ++ join_comma (map stringify l) ++ "]"
  | JObj o =>
      "{" ++ join_comma
               (flat_map (fun '(k, w) =>
                            match w with
                            | JUndefined => []
                            | _ => [quote k ++ ":" ++ stringify w]
                            end) o) ++ "}"
  end.

Definition engine : JSEngine :=
  {| JSON_parse := parse;
     JSON_stringify := stringify;
     Number_toString := toString;
     TypeError_message := fun v k =>
       "Cannot read properties of "
       ++ match v with JNull => "null" | _ => "undefined" end
       ++ " (reading '" ++ k ++ "')";
     ToPrimitive_message := "Cannot convert object to primitive value" |}.

End SmallEngine.

(** ** The method descriptor table of the protocol

    The nine methods with, for each, the router operation it invokes and
    the shape of its result, as the table of the external interfaces lists
    them.  [handleMethod] is compared with this table below. *)

Module Table.

Import Receiver.

Inductive KnownMethod : Type :=
| m_initialize
| m_tools_list
| m_tools_call
| m_resources_list
| m_resources_read
| m_resources_subscribe
| m_resources_unsubscribe
| m_prompts_list
| m_prompts_get.

(** Column "Method". *)
Definition method_name (k : KnownMethod) : string :=
  match k with
  | m_initialize => "initialize"
  | m_tools_list => "tools/list"
  | m_tools_call => "tools/call"
  | m_resources_list => "resources/list"
  | m_resources_read => "resources/read"
  | m_resources_subscribe => "resources/subscribe"
  | m_resources_unsubscribe => "resources/unsubscribe"
  | m_prompts_list => "prompts/list"
  | m_prompts_get => "prompts/get"
  end.

(** Column "Router operation": the call made for parameters [params].
    Reading [params.name] or [params.uri] needs [params] to be there:
    parameters are valid when the column yields a call. *)
Definition operation (E : JSEngine) (k : KnownMethod) (params : JSValue)
    : Completion RouterCall :=
  let read := get_prop E params in
  match k with
  | m_initialize => Normal (Call_initialize params)
  | m_tools_list => Normal Call_listTools
  | m_tools_call =>
      match read "name", read "arguments" with
      | Normal name, Normal args => Normal (Call_callTool name args)
      | Throw e, _ | _, Throw e => Throw e
      end
  | m_resources_list => Normal Call_listResources
  | m_resources_read =>
      match read "uri" with
      | Normal uri => Normal (Call_readResource uri)
      | Throw e => Throw e
      end
  | m_resources_subscribe =>
      match read "uri" with
      | Normal uri => Normal (Call_subscribeToResource uri)
      | Throw e => Throw e
      end
  | m_resources_unsubscribe =>
      match read "uri" with
      | Normal uri => Normal (Call_unsubscribeFromResource uri)
      | Throw e => Throw e
      end
  | m_prompts_list => Normal Call_listPrompts
  | m_prompts_get =>
      match read "name", read "arguments" with
      | Normal name, Normal args => Normal (Call_getPrompt name args)
      | Throw e, _ | _, Throw e => Throw e
      end
  end.

(** Column "Result envelope", for the value [v] the operation returned. *)
Definition result_envelope (k : KnownMethod) (v : JSValue) : JSValue :=
  match k with
  | m_initialize => v
  | m_tools_list => JObj [("tools", v)]
  | m_tools_call => v
  | m_resources_list => JObj [("resources", v)]
  | m_resources_read => JObj [("contents", v)]
  | m_resources_subscribe => JObj []
  | m_resources_unsubscribe => JObj []
  | m_prompts_list => JObj [("prompts", v)]
  | m_prompts_get => JObj [("messages", v)]
  end.

End Table.

(** ** What a response shows *)

Module Observe.

Import Receiver.

(** The response [res] has been sent with status [status], as JSON, with
    the serialisation of [data] as its body. *)
Definition sent_json (E : JSEngine) (res : ServerResponse) (status : Z)
    (data : JSValue) : Prop :=
  statusCode res = status
  /\ getHeader res "Content-Type" = Some "application/json"
  /\ finished res = Some (JSON_stringify E data).

(** The three CORS headers are on the response. *)
Definition has_cors_headers (res : ServerResponse) : Prop :=
  getHeader res "Access-Control-Allow-Origin" = Some "*"
  /\ getHeader res "Access-Control-Allow-Methods" = Some "POST, OPTIONS"
  /\ getHeader res "Access-Control-Allow-Headers" = Some "Content-Type".

(** The response as the server hands it to a handler. *)
Definition fresh_response : ServerResponse :=
  {| statusCode := 200; headers := ∅; finished := None |}.

(** The world [w] with the response [r] in place of its own: the router
    is as in [w]. *)
Definition with_res {RS} (w : World RS) (r : ServerResponse) : World RS :=
  {| res := r; router_state := router_state w; router_calls := router_calls w |}.

(** The id a response echoes for the request object [request]: the id of
    the request when it has one, and [null] when it has none or holds
    [null]. *)
Definition echoed_id (request : list (string * JSValue)) : JSValue :=
  match obj_get request "id" with
  | JUndefined | JNull => JNull
  | id => id
  end.



(** What [fetch] sends under the header [name]: the names of HTTP headers
    are compared without regard to the case of their letters, so every
    property of the headers object [headers] whose name is [name] up to
    case is sent under it, and [fetch] joins their values. *)
Definition entries_under (name : string) (headers : gmap string string)
    : gmap string string :=
  base.filter (fun entry => toLowerCase (fst entry) = toLowerCase name) headers.

(** How the remote answer [response] makes a forwarded call fail: its
    status is not a success, or its body is a JSON-RPC response with an
    [error] object of code [c] and message [m].  The failure
    [sendRequest] raises is the result. *)
Inductive remote_failure {E : JSEngine} (response : Forwarder.Response)
    : Thrown -> Prop :=
| failure_http_status :
    Forwarder.ok response = false ->
    remote_failure response
      (JSError ("HTTP error! status: "
                ++ Number_toString E (Forwarder.status response)))
| failure_rpc_error o error c m :
    Forwarder.ok response = true ->
    JSON_parse E (Forwarder.text response) = Normal (JObj o) ->
    obj_get o "error" = JObj error ->
    obj_get error "code" = JNum c ->
    obj_get error "message" = JStr m ->
    remote_failure response
      (JSError ("JSON-RPC error " ++ Number_toString E c ++ ": " ++ m)).


(** The [init] of the call of [fetch] that [sendRequest(method, params)]
    makes when it numbers its request [id]. *)
Definition posted_init {E : JSEngine} (this : Forwarder.HTTPMCPClient)
    (id : Z) (method : string) (params : JSValue) : Forwarder.RequestInit :=
  {| Forwarder.init_method := "POST";
     Forwarder.init_headers := Forwarder.request_headers this;
     Forwarder.init_body :=
       JSON_stringify E (Forwarder.request_object id method params) |}.

(** The network in world [w] answers the request [sendRequest(method,
    params)] posts with [response]. *)
Definition answers {E : JSEngine} {NS}
    (fetch : string -> Forwarder.RequestInit -> M NS Forwarder.Response)
    (this : Forwarder.HTTPMCPClient) (w : Forwarder.World NS)
    (method : string) (params : JSValue) (response : Forwarder.Response) : Prop :=
  exists net',
    fetch (Forwarder.options_remoteUrl this)
      (posted_init this (Forwarder.js_increment (Forwarder.requestId w))
         method params)
      (Forwarder.network w)
    = (Normal response, net').

(** The calls [(method, params)] of [sendRequest] a client makes one after
    the other, whatever each returns or throws to its caller. *)
Fixpoint send_requests {E : JSEngine} {NS}
    (fetch : string -> Forwarder.RequestInit -> M NS Forwarder.Response)
    (this : Forwarder.HTTPMCPClient) (calls : list (string * JSValue))
    (w : Forwarder.World NS) : Forwarder.World NS :=
  match calls with
  | [] => w
  | (method, params) :: rest =>
      send_requests fetch this rest
        (snd (Forwarder.sendRequest fetch this method params w))
  end.

(** The identifier of the request numbered [n]: [n] itself up to [2^53],
    where the counter stops. *)
Definition id_of_request (n : Z) : Z := Z.min n (2 ^ 53).

(** The bodies of the calls of [fetch] so far, oldest first. *)
Definition sent_bodies {NS} (w : Forwarder.World NS) : list string :=
  map (fun call => Forwarder.init_body (Forwarder.fetch_init call))
    (Forwarder.fetch_calls w).

(** The counter of a client after the calls [calls] of [sendRequest],
    from a counter that holds [counter]: one [++] for each. *)
Definition counter_after (counter : Z) (calls : list (string * JSValue)) : Z :=
  fold_left (fun counter _ => Forwarder.js_increment counter) calls counter.

(** The bodies [sendRequest] builds for the calls [calls], one after the
    other, from a counter that holds [counter]. *)
Fixpoint posted_bodies {E : JSEngine} (counter : Z)
    (calls : list (string * JSValue)) : list string :=
  match calls with
  | [] => []
  | (method, params) :: rest =>
      let id := Forwarder.js_increment counter in
      JSON_stringify E (Forwarder.request_object id method params)
      :: posted_bodies id rest
  end.

(** A text written with apostrophes for its double quotes. *)
Fixpoint json (s : string) : string :=
  match s with
  | EmptyString => EmptyString
  | String c rest =>
      String (if Ascii.eqb c "'" then SmallEngine.dquote else c) (json rest)
  end.

End Observe.

(** ** Example collaborators

    A router, a network and two clients to run the adapters on. *)

Module Example.

(** A router without state that knows one tool; calling the tool on a
    zero divisor fails. *)
Definition router : Receiver.MCPRouter unit :=
  {| Receiver.initialize := fun params =>
       ret (JObj [("serverInfo", JObj [("name", JStr "http-example-server");
                                       ("version", JStr "1.0.0")])]);
     Receiver.listTools := ret (JArr [JObj [("name", JStr "calculator")]]);
     Receiver.callTool := fun name args =>
       if strict_eq_string (obj_get (match args with JObj o => o | _ => [] end) "b") "0"
       then throw (JSError "Division by zero")
       else ret (JObj [("content", JArr [JObj [("type", JStr "text");
                                                ("text", JStr "3")]])]);
     Receiver.listResources := ret (JArr []);
     Receiver.readResource := fun uri => throw (JSThrown uri);
     Receiver.subscribeToResource := fun uri => ret JUndefined;
     Receiver.unsubscribeFromResource := fun uri => ret JUndefined;
     Receiver.listPrompts := ret (JArr []);
     Receiver.getPrompt := fun name args => ret (JArr []) |}.

(** The adapter of the example server: path [/mcp/http], CORS on. *)
Definition adapter : Receiver.HTTPAdapter unit :=
  Receiver.new_HTTPAdapter
    {| Receiver.options_router := router;
       Receiver.options_path := Some "/mcp/http";
       Receiver.options_cors := Some true |}.

(** The world of a request the server has just accepted. *)
Definition world : Receiver.World unit :=
  {| Receiver.res := Observe.fresh_response;
     Receiver.router_state := tt;
     Receiver.router_calls := [] |}.

Definition post (body : list string) : Receiver.IncomingMessage :=
  {| Receiver.url := "/mcp/http"; Receiver.method := "POST";
     Receiver.chunks := body |}.

(** A network that answers the calls of [fetch] with the responses it
    holds, in order, and has none left after them. *)
Definition fetch (url : string) (init : Forwarder.RequestInit)
    : M (list Forwarder.Response) Forwarder.Response :=
  fun responses =>
    match responses with
    | response :: rest => (Normal response, rest)
    | [] => (Throw (JSError "fetch failed"), [])
    end.

(** A client with the default error callback and no headers of its own. *)
Definition client : Forwarder.HTTPMCPClient :=
  Forwarder.new_HTTPMCPClient
    {| Forwarder.remoteUrl := "http://localhost:9512";
       Forwarder.headers := None;
       Forwarder.onError := None |}.


(** As many requests as the counter of a client can tell apart. *)
Definition many_requests : list (string * JSValue) :=
  repeat ("tools/list", JUndefined) (Z.to_nat (2 ^ 53)).

Definition response_200 (body : string) : Forwarder.Response :=
  {| Forwarder.ok := true; Forwarder.status := 200%float;
     Forwarder.text := body |}.

Definition response_500 : Forwarder.Response :=
  {| Forwarder.ok := false; Forwarder.status := 500%float;
     Forwarder.text := "Internal Server Error" |}.

End Example.

(** ** The command line entry: [index.ts] *)

Module Cli.

Import Forwarder.

(** [process.env[key]] on the variables of the environment, listed as
    [Object.keys(process.env)] lists them. *)
Fixpoint getenv (env : list (string * string)) (key : string) : option string :=
  match env with
  | [] => None
  | (name, value) :: rest =>
      if String.eqb name key then Some value else getenv rest key
  end.

(** [value || fallback] on a string that may be [undefined]: the empty
    string is falsy too. *)
Definition or_else (value : option string) (fallback : string) : string :=
  match value with
  | Some s => if String.eqb s "" then fallback else s
  | None => fallback
  end.

(** [key.startsWith(prefix)]. *)
Definition startsWith (key prefix : string) : bool := String.prefix prefix key.

(** [key.substring(n)]: [key] without its first [n] characters. *)
Fixpoint substring_from (n : nat) (key : string) : string :=
  match n, key with
  | O, _ => key
  | S n', String _ rest => substring_from n' rest
  | S _, EmptyString => EmptyString
  end.

(** [name.replace(/_/g, '-')]. *)
Fixpoint replace_underscores (name : string) : string :=
  match name with
  | EmptyString => EmptyString
  | String c rest =>
      String (if Ascii.eqb c "_" then "-"%char else c) (replace_underscores rest)
  end.

(** [key.substring('HTTP_HEADER_'.length).toLowerCase().replace(/_/g, '-')],
    on variable names of ASCII characters, where [toLowerCase] changes the
    letters [A] to [Z] only. *)
Definition headerKey (key : string) : string :=
  replace_underscores
    (Receiver.toLowerCase (substring_from (String.length "HTTP_HEADER_") key)).

(** The [headers] of [index.ts]: the variables whose name starts with
    [HTTP_HEADER_], each written under its header key into an object that
    starts empty; a later variable overwrites an earlier one with the same
    key. *)
Definition headers (env : list (string * string)) : gmap string string :=
  fold_left
    (fun headers key =>
       let headerValue := or_else (getenv env key) "" in
       <[headerKey key := headerValue]> headers)
    (List.filter (fun key => startsWith key "HTTP_HEADER_") (map fst env))
    ∅.

(** What the module starts: the HTTP client, or the tRPC client
    ([RemoteMCPClient] of [./client.js], of which only the options it is
    given are kept). *)
Inductive Started : Type :=
| Start_HTTPMCPClient (client : HTTPMCPClient)
| Start_RemoteMCPClient (remoteUrl : string) (headers : gmap string string).

(** The body of the module. *)
Definition main (env : list (string * string)) : Started :=
  let headers := headers env in
  let remoteUrl := or_else (getenv env "REMOTE_MCP_URL") "http://localhost:9512" in
  let transport := or_else (getenv env "REMOTE_MCP_TRANSPORT") "trpc" in
  if String.eqb transport "http" then
    Start_HTTPMCPClient
      (new_HTTPMCPClient
         {| Forwarder.remoteUrl := remoteUrl;
            Forwarder.headers := Some headers;
            Forwarder.onError := None |})
  else Start_RemoteMCPClient remoteUrl headers.

(** A name of ASCII characters. *)
Definition ascii_only (name : string) : Prop :=
  Forall (fun c => (N_of_ascii c < 128)%N) (list_ascii_of_string name).

(** A name without underscore and without capital letter. *)
Definition lowered (name : string) : Prop :=
  Forall (fun c => c <> "_"%char /\ ~ (65 <= N_of_ascii c <= 90)%N)
    (list_ascii_of_string name).

(** The names of the variables that [headers] reads, in order. *)
Definition header_variables (env : list (string * string)) : list string :=
  List.filter (fun key => startsWith key "HTTP_HEADER_") (map fst env).

End Cli.

(** ** The example server: the calculator tool *)

Module Calculator.

Section Tool.

Context {E : JSEngine}.

(** The engine's [Number(value)]. *)
Variable Number : JSValue -> float.

(** The handler given to [mcpRouter.addTool('calculator', ...)].  The
    [switch] has no default: [result] stays [undefined] for an operation
    that is none of the four. *)
Definition calculator {W} (args : JSValue) : M W JSValue :=
  arg_a <- lift (get_prop E args "a") ;;
  let a := Number arg_a in
  arg_b <- lift (get_prop E args "b") ;;
  let b := Number arg_b in
  operation <- lift (get_prop E args "operation") ;;
  result <-
    (if strict_eq_string operation "add" then ret (JNum (a + b)%float)
     else if strict_eq_string operation "subtract" then ret (JNum (a - b)%float)
     else if strict_eq_string operation "multiply" then ret (JNum (a * b)%float)
     else if strict_eq_string operation "divide" then
       if PrimFloat.eqb b 0 then throw (JSError "Division by zero")
       else ret (JNum (a / b)%float)
     else ret JUndefined) ;;
  text <- lift (ToString E result) ;;
  ret (JObj [("content",
             JArr [JObj [("type", JStr "text"); ("text", JStr text)]])]).

End Tool.

End Calculator.

(** ** More of what a run shows *)

Module Shape.

Import Receiver.


(** A relation between the world before a step and the world after it
    that steps in sequence keep. *)
Class Frame {RS} (P : World RS -> World RS -> Prop) : Prop := {
  frame_refl : forall w, P w w;
  frame_trans : forall w1 w2 w3, P w1 w2 -> P w2 w3 -> P w1 w3
}.

(** The step [c] keeps [P], whatever world it starts in and whether it
    returns or throws. *)
Definition framed {RS A} (P : World RS -> World RS -> Prop)
    (c : M (World RS) A) : Prop :=
  forall w, P w (snd (c w)).

(** Every header of the response but [Content-Type] is as it was. *)
Definition headers_kept {RS} (w w' : World RS) : Prop :=
  forall name,
    toLowerCase name <> "content-type" ->
    getHeader (res w') name = getHeader (res w) name.

(** The response is as it was. *)
Definition response_kept {RS} (w w' : World RS) : Prop := res w' = res w.

(** The router has received no call and is in the state it was in. *)
Definition router_kept {RS} (w w' : World RS) : Prop :=
  router_calls w' = router_calls w /\ router_state w' = router_state w.

(** The step [c] calls the router at most [n] times, whatever world it
    starts in, and only adds to the record of calls. *)
Definition calls_router_at_most {RS A} (n : nat) (c : M (World RS) A) : Prop :=
  forall w, exists calls,
    router_calls (snd (c w)) = (router_calls w ++ calls)%list
    /\ (List.length calls <= n)%nat.

(** The property of [params] that [handleMethod] reads first for the
    method [k], if it reads one. *)
Definition first_read (k : Table.KnownMethod) : option string :=
  match k with
  | Table.m_tools_call | Table.m_prompts_get => Some "name"
  | Table.m_resources_read | Table.m_resources_subscribe
  | Table.m_resources_unsubscribe => Some "uri"
  | Table.m_initialize | Table.m_tools_list | Table.m_resources_list
  | Table.m_prompts_list => None
  end.

End Shape.

(** ** The two adapters face to face

    The network between a forwarder and the server of the example,
    [createServer(httpAdapter.createHandler())]: a call of [fetch] runs
    the handler of [createHandler] on the request it carries and on a
    response of its own, and resolves to what the handler sent.  The state
    of this network is the router behind the adapter and the record of its
    calls.  How a URL names the path of a request is the engine's
    ([request_path]); a handler that throws sends nothing, and [fetch]
    rejects. *)

Module Wire.

Section Server.

Context {E : JSEngine} {RS : Type}.
Variable adapter : Receiver.HTTPAdapter RS.
Variable request_path : string -> string.

(** [response.ok]: a status from 200 to 299. *)
Definition is_ok (statusCode : Z) : bool :=
  (200 <=? statusCode) && (statusCode <=? 299).

Definition fetch (url : string) (init : Forwarder.RequestInit)
    : M (RS * list Receiver.RouterCall) Forwarder.Response :=
  fun server =>
    let req :=
      {| Receiver.url := request_path url;
         Receiver.method := Forwarder.init_method init;
         Receiver.chunks := [Forwarder.init_body init] |} in
    let w :=
      {| Receiver.res := Observe.fresh_response;
         Receiver.router_state := fst server;
         Receiver.router_calls := snd server |} in
    let '(out, w') := Receiver.createHandler adapter req w in
    let server' := (Receiver.router_state w', Receiver.router_calls w') in
    match out, Receiver.finished (Receiver.res w') with
    | Normal _, Some body =>
        (Normal
           {| Forwarder.ok := is_ok (Receiver.statusCode (Receiver.res w'));
              Forwarder.status :=
                Forwarder.number_of_Z (Receiver.statusCode (Receiver.res w'));
              Forwarder.text := body |},
         server')
    | _, _ => (Throw (JSError "fetch failed"), server')
    end.

End Server.

End Wire.

(** ** More example collaborators *)

Module Demo.

(** An adapter of the example router with CORS switched off and no path
    of its own. *)
Definition adapter_without_cors : Receiver.HTTPAdapter unit :=
  Receiver.new_HTTPAdapter
    {| Receiver.options_router := Example.router;
       Receiver.options_path := None;
       Receiver.options_cors := Some false |}.

(** An adapter constructed with the empty path and no [cors] option. *)
Definition adapter_by_default : Receiver.HTTPAdapter unit :=
  Receiver.new_HTTPAdapter
    {| Receiver.options_router := Example.router;
       Receiver.options_path := Some "";
       Receiver.options_cors := None |}.

(** The world of a request on whose response an earlier handler has set
    a header. *)
Definition world_with_header : Receiver.World unit :=
  {| Receiver.res :=
       {| Receiver.statusCode := 200;
          Receiver.headers := {[ "x-request-id" := "42" ]};
          Receiver.finished := None |};
     Receiver.router_state := tt;
     Receiver.router_calls := [] |}.

Definition request (method url : string) (body : list string)
    : Receiver.IncomingMessage :=
  {| Receiver.url := url; Receiver.method := method; Receiver.chunks := body |}.

(** The options of the example client, and the same with [undefined]
    and with a function under [onError]. *)
Definition options : Forwarder.HTTPMCPClientOptions :=
  {| Forwarder.remoteUrl := "http://localhost:9512";
     Forwarder.headers := None;
     Forwarder.onError := None |}.

Definition options_without_callback : Forwarder.HTTPMCPClientOptions :=
  {| Forwarder.remoteUrl := "http://localhost:9512";
     Forwarder.headers := None;
     Forwarder.onError := Some None |}.

Definition options_with_callback : Forwarder.HTTPMCPClientOptions :=
  {| Forwarder.remoteUrl := "http://localhost:9512";
     Forwarder.headers := None;
     Forwarder.onError := Some (Some Forwarder.User_onError) |}.

(** An environment. *)
Definition env : list (string * string) :=
  [("PATH", "/usr/bin");
   ("HTTP_HEADER_AUTHORIZATION", "Bearer secret");
   ("REMOTE_MCP_TRANSPORT", "http");
   ("HTTP_HEADER_CONTENT_TYPE", "text/plain");
   ("HTTP_HEADERS", "none");
   ("HTTP_HEADER_X_API_KEY", "")].

(** [Number(value)] on the texts of integers and on numbers; the other
    values are outside what this function converts, and give [NaN]. *)
Definition Number (value : JSValue) : float :=
  match value with
  | JNum x => x
  | JStr s =>
      match SmallEngine.read_integer s with
      | Some (x, EmptyString) => x
      | _ => PrimFloat.nan
      end
  | _ => PrimFloat.nan
  end.

(** The path of an absolute URL without query, as the server reads it
    in [req.url]: the text from the first [/] after the [//] of the
    scheme, or [/] when there is none. *)
Fixpoint from_slash (rest : string) : string :=
  match rest with
  | EmptyString => "/"
  | String c rest' => if Ascii.eqb c "/" then rest else from_slash rest'
  end.

Fixpoint pathname (url : string) : string :=
  match url with
  | EmptyString => "/"
  | String c rest =>
      match rest with
      | String c' rest' =>
          if Ascii.eqb c "/" && Ascii.eqb c' "/" then from_slash rest'
          else pathname rest
      | EmptyString => "/"
      end
  end.

(** A router whose [initialize] returns nothing, that is [undefined],
    and an adapter of it. *)
Definition router_without_result : Receiver.MCPRouter unit :=
  {| Receiver.initialize := fun params => ret JUndefined;
     Receiver.listTools := Receiver.listTools Example.router;
     Receiver.callTool := Receiver.callTool Example.router;
     Receiver.listResources := Receiver.listResources Example.router;
     Receiver.readResource := Receiver.readResource Example.router;
     Receiver.subscribeToResource := Receiver.subscribeToResource Example.router;
     Receiver.unsubscribeFromResource :=
       Receiver.unsubscribeFromResource Example.router;
     Receiver.listPrompts := Receiver.listPrompts Example.router;
     Receiver.getPrompt := Receiver.getPrompt Example.router |}.

Definition adapter_without_result : Receiver.HTTPAdapter unit :=
  Receiver.new_HTTPAdapter
    {| Receiver.options_router := router_without_result;
       Receiver.options_path := Some "/mcp/http";
       Receiver.options_cors := Some true |}.

(** A client configured with a [content-type] header in lower case. *)
Definition client_lower_case : Forwarder.HTTPMCPClient :=
  Forwarder.new_HTTPMCPClient
    {| Forwarder.remoteUrl := "http://localhost:9512";
       Forwarder.headers := Some {[ "content-type" := "text/plain" ]};
       Forwarder.onError := None |}.

(** A client of the example server. *)
Definition client_of_server : Forwarder.HTTPMCPClient :=
  Forwarder.new_HTTPMCPClient
    {| Forwarder.remoteUrl := "http://localhost:9513/mcp/http";
       Forwarder.headers := None;
       Forwarder.onError := None |}.

End Demo.

(** * Properties *)

(** ** The receiver *)

Module ReceiverSpec.

Import Receiver Table Observe.

#[local] Arguments toLowerCase : simpl never.

(** Evaluates [toLowerCase] on the header names of the goal. *)
Ltac lower :=
  repeat match goal with
         | |- context [toLowerCase ?s] =>
             lazymatch s with
             | String _ _ =>
                 let t := eval vm_compute in (toLowerCase s) in
                 change (toLowerCase s) with t
             end
         end.

(** Turns the id [o.id ?? null] that [handle] computes, in the
    hypothesis [H], into the id the response echoes. *)
Ltac echoes H o :=
  replace (nullish (obj_get o "id") JNull) with (echoed_id o) in H
    by (unfold echoed_id; destruct (obj_get o "id"); reflexivity).


Section Properties.

Context {E : JSEngine} {RS : Type}.
Variable this : HTTPAdapter RS.

Lemma bind_Normal {W A B} (c : M W A) (k : A -> M W B) w a w' :
  c w = (Normal a, w') -> bind c k w = k a w'.
Proof. intros H. unfold bind. now rewrite H. Qed.

Lemma bind_Throw {W A B} (c : M W A) (k : A -> M W B) w e w' :
  c w = (Throw e, w') -> bind c k w = (Throw e, w').
Proof. intros H. unfold bind. now rewrite H. Qed.

Lemma strict_eq_string_false v s :
  strict_eq_string v s = false <-> v <> JStr s.
Proof.
  destruct v; cbn; try (split; [discriminate|reflexivity]).
  destruct (String.eqb_spec s0 s); split; congruence.
Qed.

(** *** The response *)

Lemma setHeader_unsent name value (w : World RS) :
  finished (res w) = None ->
  on_res (setHeader name value) w =
    (Normal tt,
     with_res w {| statusCode := statusCode (res w);
                   headers := <[toLowerCase name := value]> (headers (res w));
                   finished := None |}).
Proof.
  intros H. unfold on_res, setHeader. rewrite H. reflexivity.
Qed.

Lemma setCORSHeaders_unsent (w : World RS) :
  finished (res w) = None ->
  exists r,
    setCORSHeaders this w = (Normal tt, with_res w r)
    /\ finished r = None
    /\ statusCode r = statusCode (res w)
    /\ (cors this = true -> has_cors_headers r)
    /\ (cors this = false -> r = res w).
Proof.
  intros H. unfold setCORSHeaders. destruct (cors this).
  - eexists. split.
    + erewrite bind_Normal by (apply setHeader_unsent; exact H).
      erewrite bind_Normal by (apply setHeader_unsent; reflexivity).
      rewrite setHeader_unsent by reflexivity. reflexivity.
    + unfold has_cors_headers, getHeader.
      cbn [res with_res headers finished statusCode].
      lower. repeat split; intros; try discriminate; simplify_map_eq; done.
  - exists (res w). unfold with_res. destruct w.
    repeat split; try discriminate; auto.
Qed.

Lemma sendJSON_unsent status data (w : World RS) :
  finished (res w) = None ->
  exists r,
    sendJSON status data w = (Normal tt, with_res w r)
    /\ sent_json E r status data
    /\ (forall name, toLowerCase name <> "content-type" ->
          getHeader r name = getHeader (res w) name).
Proof.
  intros H. unfold sendJSON. eexists. split; [|split].
  - erewrite bind_Normal by reflexivity.
    erewrite bind_Normal by (apply setHeader_unsent; exact H).
    unfold on_res, end_, modify. cbn. reflexivity.
  - unfold sent_json, getHeader. cbn. lower. simplify_map_eq. done.
  - intros name Hn. unfold getHeader. cbn. lower. simplify_map_eq. done.
Qed.

Lemma sendError_unsent id code message data (w : World RS) r :
  finished r = None ->
  exists w',
    (sendError id code message data ;; ret true) (with_res w r) = (Normal true, w')
    /\ sent_json E (res w') 200 (error_response id code message data)
    /\ router_calls w' = router_calls w
    /\ router_state w' = router_state w.
Proof.
  intros Hr. unfold sendError.
  destruct (sendJSON_unsent 200 (error_response id code message data)
              (with_res w r) Hr) as (r' & Hsend & Hsent & _).
  exists (with_res w r'). split; [|split; [exact Hsent|split; reflexivity]].
  erewrite bind_Normal by exact Hsend. reflexivity.
Qed.

(** *** The steps of [handle] up to the parsed body *)

Lemma handle_post req (w : World RS) :
  url req = path this -> method req = "POST" -> finished (res w) = None ->
  exists r,
    finished r = None /\ statusCode r = statusCode (res w)
    /\ handle this req w =
       match JSON_parse E (read_body req) with
       | Throw _ =>
           (sendError JNull (-32700)%float "Parse error" JUndefined ;; ret true)
             (with_res w r)
       | Normal jsonrpcRequest =>
           (invalid <- invalid_request jsonrpcRequest ;;
            if invalid then
              id <- request_id jsonrpcRequest ;;
              sendError id (-32600)%float "Invalid Request" JUndefined ;;
              ret true
            else
              try_catch
                (method <- lift (get_prop E jsonrpcRequest "method") ;;
                 params <- lift (get_prop E jsonrpcRequest "params") ;;
                 result <- handleMethod this method params ;;
                 id <- request_id jsonrpcRequest ;;
                 sendJSON 200 (success_response id result))
                (fun error =>
                   let errorMessage := message_or error "Unknown error" in
                   id <- request_id jsonrpcRequest ;;
                   sendError id (-32603)%float "Internal error"
                     (JStr errorMessage)) ;;
              ret true) (with_res w r)
       end.
Proof.
  intros Hurl Hmethod Hfin.
  destruct (setCORSHeaders_unsent w Hfin) as (r & Hcors & Hr & Hs & _).
  exists r. split; [exact Hr|]. split; [exact Hs|].
  unfold handle. rewrite Hurl, String.eqb_refl, Hmethod. cbn [negb].
  erewrite bind_Normal by exact Hcors. cbn.
  destruct (JSON_parse E (read_body req)); reflexivity.
Qed.

Lemma valid_request_passes o (w : World RS) :
  obj_get o "jsonrpc" = JStr "2.0" ->
  truthy (obj_get o "method") = true ->
  invalid_request (JObj o) w = (Normal false, w).
Proof.
  intros Hv Hm. unfold invalid_request, bind, lift, ret. cbn.
  rewrite Hv. cbn. rewrite Hm. reflexivity.
Qed.

(** *** [handleMethod] against the descriptor table *)

Lemma handleMethod_known k params (w : World RS) :
  handleMethod this (JStr (method_name k)) params w =
  match operation E k params with
  | Throw e => (Throw e, w)
  | Normal call => (v <- invoke this call ;; ret (result_envelope k v)) w
  end.
Proof.
  destruct k; unfold handleMethod, operation;
    cbn [method_name strict_eq_string String.eqb Ascii.eqb Bool.eqb
         result_envelope];
    unfold bind, lift, ret;
    repeat match goal with
           | |- context [get_prop E params ?k] => destruct (get_prop E params k)
           end;
    try reflexivity;
    match goal with
    | |- context [invoke this ?c w] => destruct (invoke this c w) as [[?|?] ?]
    end; reflexivity.
Qed.



(** A valid request whose dispatch throws [e], before the router is
    called or in it, is answered with the internal error of [e]. *)
Lemma handle_dispatch_throws req (w : World RS) o e s1 calls :
  url req = path this -> method req = "POST" -> finished (res w) = None ->
  JSON_parse E (read_body req) = Normal (JObj o) ->
  obj_get o "jsonrpc" = JStr "2.0" ->
  truthy (obj_get o "method") = true ->
  (forall r,
     handleMethod this (obj_get o "method") (obj_get o "params") (with_res w r)
     = (Throw e, {| res := r; router_state := s1;
                    router_calls := router_calls w ++ calls |})) ->
  exists w',
    handle this req w = (Normal true, w')
    /\ sent_json E (res w') 200
         (error_response (nullish (obj_get o "id") JNull) (-32603)%float
            "Internal error" (JStr (message_or e "Unknown error")))
    /\ router_calls w' = (router_calls w ++ calls)%list
    /\ router_state w' = s1.
Proof.
  intros Hurl Hmethod Hfin Hparse Hv Hm Hthrow.
  destruct (handle_post req w Hurl Hmethod Hfin) as (r & Hr & _ & ->).
  rewrite Hparse.
  erewrite bind_Normal by (apply valid_request_passes; assumption).
  cbn iota.
  set (w1 := {| res := r; router_state := s1;
                router_calls := router_calls w ++ calls |}).
  destruct (sendError_unsent (nullish (obj_get o "id") JNull) (-32603)%float
              "Internal error" (JStr (message_or e "Unknown error")) w1 r Hr)
    as (w' & Hsend & Hsent & Hcalls & Hstate).
  exists w'. split; [|split; [exact Hsent|split; assumption]].
  unfold bind at 1, try_catch.
  unfold bind at 1, lift at 1. cbn [get_prop].
  unfold bind at 1, lift at 1.
  unfold bind at 1. rewrite (Hthrow r). fold w1.
  unfold request_id. erewrite bind_Normal by reflexivity.
  unfold sendError, bind, ret in Hsend |- *.
  change (with_res w1 r) with w1 in Hsend.
  destruct (sendJSON 200 _ w1) as [[[]|?] ?]; [|discriminate].
  injection Hsend as <-. reflexivity.
Qed.

Lemma method_name_truthy k : truthy (JStr (method_name k)) = true.
Proof. destruct k; reflexivity. Qed.

Lemma invoke_run call (w : World RS) r :
  invoke this call (with_res w r) =
    let '(out, s') := perform (router this) call (router_state w) in
    (out, {| res := r; router_state := s';
             router_calls := router_calls w ++ [call] |}).
Proof. reflexivity. Qed.

(** *** The envelopes of [handle]

    The theorems below take a response that has not been sent yet, which
    is how Node's server hands it to a handler. *)

(** C6.  A request whose URL differs from the configured path is not
    handled: [handle] returns [false] and leaves the world as it found
    it.  The response keeps its status, its headers (no CORS header is
    added) and has no body; the router is not called. *)
Theorem handle_other_path req (w : World RS) :
  url req <> path this -> handle this req w = (Normal false, w).
Proof.
  intros H. unfold handle.
  destruct (String.eqb_spec (url req) (path this)); [contradiction|reflexivity].
Qed.

(** C3.  A POST to the configured path whose body [JSON.parse] rejects is
    answered with status 200 and the error envelope of id [null], code
    -32700 and message "Parse error" (its [data] is [undefined], which
    [JSON.stringify] leaves out); [handle] returns [true], and the router
    is neither called nor changed. *)
Theorem parse_error_response req (w : World RS) e :
  url req = path this -> method req = "POST" -> finished (res w) = None ->
  JSON_parse E (read_body req) = Throw e ->
  exists w',
    handle this req w = (Normal true, w')
    /\ sent_json E (res w') 200
         (JObj [("jsonrpc", JStr "2.0"); ("id", JNull);
                ("error", JObj [("code", JNum (-32700)%float);
                                ("message", JStr "Parse error");
                                ("data", JUndefined)])])
    /\ router_calls w' = router_calls w
    /\ router_state w' = router_state w.
Proof.
  intros Hurl Hmethod Hfin Hparse.
  destruct (handle_post req w Hurl Hmethod Hfin) as (r & Hr & _ & ->).
  rewrite Hparse.
  destruct (sendError_unsent JNull (-32700)%float "Parse error" JUndefined w r Hr)
    as (w' & Hsend & Hsent & Hcalls & Hstate).
  exists w'. split; [exact Hsend|]. split; [exact Hsent|]. split; assumption.
Qed.

(** C4.  A POST to the configured path whose body parses to an object [o]
    with [o.jsonrpc] other than "2.0", or with [o.method] missing or
    empty, is answered with status 200 and the error envelope of code
    -32600 and message "Invalid Request", whose id is the id of the
    request when it has one and [null] otherwise ([echoed_id]); its [data]
    is [undefined], which [JSON.stringify] leaves out.  The router is
    neither called nor changed. *)
Theorem invalid_request_response req (w : World RS) o :
  url req = path this -> method req = "POST" -> finished (res w) = None ->
  JSON_parse E (read_body req) = Normal (JObj o) ->
  obj_get o "jsonrpc" <> JStr "2.0"
  \/ obj_get o "method" = JUndefined
  \/ obj_get o "method" = JStr "" ->
  exists w',
    handle this req w = (Normal true, w')
    /\ sent_json E (res w') 200
         (JObj [("jsonrpc", JStr "2.0"); ("id", echoed_id o);
                ("error", JObj [("code", JNum (-32600)%float);
                                ("message", JStr "Invalid Request");
                                ("data", JUndefined)])])
    /\ router_calls w' = router_calls w
    /\ router_state w' = router_state w.
Proof.
  intros Hurl Hmethod Hfin Hparse Hbad.
  destruct (handle_post req w Hurl Hmethod Hfin) as (r & Hr & _ & ->).
  rewrite Hparse.
  assert (Hinv : invalid_request (JObj o) (with_res w r)
                 = (Normal true, with_res w r)).
  { unfold invalid_request, bind, lift, ret. cbn.
    destruct (strict_eq_string (obj_get o "jsonrpc") "2.0") eqn:Hv; [|reflexivity].
    cbn. destruct Hbad as [Hb | [Hb | Hb]].
    - apply strict_eq_string_false in Hb. congruence.
    - rewrite Hb. reflexivity.
    - rewrite Hb. reflexivity. }
  erewrite bind_Normal by exact Hinv. cbn iota.
  unfold request_id. erewrite bind_Normal by reflexivity.
  destruct (sendError_unsent (nullish (obj_get o "id") JNull) (-32600)%float
              "Invalid Request" JUndefined w r Hr)
    as (w' & Hsend & Hsent & Hcalls & Hstate).
  echoes Hsent o.
  exists w'. split; [exact Hsend|]. split; [exact Hsent|]. split; assumption.
Qed.

(** C10.  A body that [JSON.parse] accepts and reads as [null], as it
    does the text [null], makes [handle] on a matched POST throw the
    [TypeError] of reading [jsonrpc] of [null]: no boolean is returned,
    the response is not sent and keeps its status, and the router is not
    called.  None of the error envelopes is produced. *)
Theorem null_body_escapes req (w : World RS) :
  url req = path this -> method req = "POST" -> finished (res w) = None ->
  JSON_parse E (read_body req) = Normal JNull ->
  exists w',
    handle this req w = (Throw (JSError (TypeError_message E JNull "jsonrpc")), w')
    /\ finished (res w') = None
    /\ statusCode (res w') = statusCode (res w)
    /\ router_calls w' = router_calls w
    /\ router_state w' = router_state w.
Proof.
  intros Hurl Hmethod Hfin Hparse.
  destruct (handle_post req w Hurl Hmethod Hfin) as (r & Hr & Hs & ->).
  rewrite Hparse. exists (with_res w r).
  split; [reflexivity|]. cbn. auto.
Qed.



End Properties.

(** *** The theorems at work on the example server *)

Lemma handle_other_path_witness :
  handle (E := SmallEngine.engine) Example.adapter
    {| url := "/health"; method := "GET"; chunks := [] |} Example.world
  = (Normal false, Example.world).
Proof. apply handle_other_path. vm_compute. discriminate. Defined.

Lemma parse_error_response_witness :
  exists w',
    handle (E := SmallEngine.engine) Example.adapter
      (Example.post ["not"; " json"]) Example.world
    = (Normal true, w')
    /\ sent_json SmallEngine.engine (res w') 200
         (JObj [("jsonrpc", JStr "2.0"); ("id", JNull);
                ("error", JObj [("code", JNum (-32700)%float);
                                ("message", JStr "Parse error");
                                ("data", JUndefined)])])
    /\ router_calls w' = []
    /\ router_state w' = tt.
Proof.
  apply (parse_error_response (E := SmallEngine.engine) Example.adapter
           (Example.post ["not"; " json"]) Example.world
           (JSError "Unexpected token in JSON")); reflexivity.
Defined.

Lemma invalid_request_response_witness :
  exists w',
    handle (E := SmallEngine.engine) Example.adapter
      (Example.post [json "{'jsonrpc':'1.0','id':2,'method':'x'}"])
      Example.world
    = (Normal true, w')
    /\ sent_json SmallEngine.engine (res w') 200
         (JObj [("jsonrpc", JStr "2.0"); ("id", JNum 2);
                ("error", JObj [("code", JNum (-32600)%float);
                                ("message", JStr "Invalid Request");
                                ("data", JUndefined)])])
    /\ router_calls w' = []
    /\ router_state w' = tt.
Proof.
  apply (invalid_request_response (E := SmallEngine.engine) Example.adapter
           (Example.post [json "{'jsonrpc':'1.0','id':2,'method':'x'}"])
           Example.world
           [("jsonrpc", JStr "1.0"); ("id", JNum 2); ("method", JStr "x")]);
    try reflexivity.
  left. vm_compute. discriminate.
Defined.

(** The body is the text [null], of four characters. *)
Lemma null_body_escapes_witness :
  String.length (read_body (Example.post ["null"])) = 4%nat
  /\ JSON_parse SmallEngine.engine (read_body (Example.post ["null"]))
     = Normal JNull
  /\ exists w',
       handle (E := SmallEngine.engine) Example.adapter (Example.post ["null"])
         Example.world
       = (Throw (JSError "Cannot read properties of null (reading 'jsonrpc')"), w')
       /\ finished (res w') = None
       /\ statusCode (res w') = 200
       /\ router_calls w' = []
       /\ router_state w' = tt.
Proof.
  split; [reflexivity|]. split; [reflexivity|].
  apply (null_body_escapes (E := SmallEngine.engine) Example.adapter
           (Example.post ["null"]) Example.world); reflexivity.
Defined.



(** C2, as stated, fails: when the router operation of [initialize]
    returns [undefined], the response that is sent has no [result]. *)
Lemma undefined_result_is_left_out :
  let w' := snd (handle (E := SmallEngine.engine) Demo.adapter_without_result
                   (Example.post
                      [json "{'jsonrpc':'2.0','id':1,'method':'initialize','params':{}}"])
                   Example.world) in
  router_calls w' = [Call_initialize (JObj [])]
  /\ statusCode (res w') = 200
  /\ finished (res w') = Some (json "{'jsonrpc':'2.0','id':1}")
  /\ JSON_parse SmallEngine.engine (json "{'jsonrpc':'2.0','id':1}")
     = Normal (JObj [("jsonrpc", JStr "2.0"); ("id", JNum 1)])
  /\ has_own [("jsonrpc", JStr "2.0"); ("id", JNum 1)] "result" = false.
Proof. vm_compute. repeat split; reflexivity. Qed.


(** C5, as stated, fails: a valid request whose method is an object with
    a [toString] member of its own, which is none of the nine, is answered
    with the message of a [TypeError] as [data], not with "Method not
    found: ..." and the method. *)
Lemma unconvertible_method_is_not_named :
  let req :=
    Example.post [json "{'jsonrpc':'2.0','id':4,'method':{'toString':1}}"] in
  let w' := snd (handle (E := SmallEngine.engine) Example.adapter req
                   Example.world) in
  JSON_parse SmallEngine.engine (read_body req)
  = Normal (JObj [("jsonrpc", JStr "2.0"); ("id", JNum 4);
                  ("method", JObj [("toString", JNum 1)])])
  /\ finished (res w')
     = Some (json "{'jsonrpc':'2.0','id':4,'error':{'code':-32603,'message':'Internal error','data':'Cannot convert object to primitive value'}}")
  /\ String.prefix "Method not found: "
       "Cannot convert object to primitive value" = false.
Proof. vm_compute. repeat split; reflexivity. Qed.

(** *** The scenarios of the protocol description, run *)

Example scenario_tools_list :
  finished (res (snd (handle (E := SmallEngine.engine) Example.adapter
    (Example.post
       [json "{'jsonrpc':'2.0','id':1,'method':'tools/list','params':{}}"])
    Example.world)))
  = Some (json "{'jsonrpc':'2.0','id':1,'result':{'tools':[{'name':'calculator'}]}}").
Proof. vm_compute. reflexivity. Qed.

Example scenario_not_json :
  finished (res (snd (handle (E := SmallEngine.engine) Example.adapter
    (Example.post ["not json"]) Example.world)))
  = Some (json "{'jsonrpc':'2.0','id':null,'error':{'code':-32700,'message':'Parse error'}}").
Proof. vm_compute. reflexivity. Qed.

Example scenario_version_1_0 :
  finished (res (snd (handle (E := SmallEngine.engine) Example.adapter
    (Example.post [json "{'jsonrpc':'1.0','id':2,'method':'x'}"])
    Example.world)))
  = Some (json "{'jsonrpc':'2.0','id':2,'error':{'code':-32600,'message':'Invalid Request'}}").
Proof. vm_compute. reflexivity. Qed.

Example scenario_options :
  let w := snd (handle (E := SmallEngine.engine) Example.adapter
                  {| url := "/mcp/http"; method := "OPTIONS"; chunks := [] |}
                  Example.world) in
  statusCode (res w) = 204 /\ finished (res w) = Some ""
  /\ getHeader (res w) "access-control-allow-origin" = Some "*".
Proof. vm_compute. repeat split; reflexivity. Qed.

Example scenario_not_found :
  let w := snd (createHandler (E := SmallEngine.engine) Example.adapter
                  {| url := "/"; method := "GET"; chunks := [] |}
                  Example.world) in
  statusCode (res w) = 404 /\ finished (res w) = Some "Not Found".
Proof. vm_compute. split; reflexivity. Qed.

End ReceiverSpec.

(** ** The forwarder *)

Module ForwarderSpec.

Import Forwarder Table Observe.

Section Properties.

Context {E : JSEngine} {NS : Type}.
Variable fetch : string -> RequestInit -> M NS Response.
Variable this : HTTPMCPClient.

(** *** One call of [sendRequest] *)

(** Whatever [sendRequest] returns or throws, it leaves the same world:
    the counter incremented and one call of [fetch] recorded. *)
Lemma sendRequest_world method params (w : World NS) :
  snd (sendRequest fetch this method params w) =
  {| requestId := js_increment (requestId w);
     network := snd (fetch (options_remoteUrl this)
                       (posted_init this (js_increment (requestId w)) method params)
                       (network w));
     fetch_calls := fetch_calls w ++
       [{| fetch_url := options_remoteUrl this;
           fetch_init := posted_init this (js_increment (requestId w))
                           method params |}];
     onError_calls := onError_calls w;
     logging_messages := logging_messages w |}.
Proof.
  unfold sendRequest, bind, increment_requestId, call_fetch, posted_init, lift, throw.
  cbn [requestId network fetch_calls onError_calls logging_messages].
  destruct (fetch _ _ (network w)) as [[response|e] net']; cbn; [|reflexivity].
  destruct (ok response); cbn; [|reflexivity].
  destruct (JSON_parse E (text response)) as [v|e]; cbn; [|reflexivity].
  destruct (get_prop E v "error") as [err|e]; cbn; [|reflexivity].
  destruct (truthy err); cbn.
  - destruct (get_prop E err "code") as [code|]; cbn; [|reflexivity].
    destruct (ToString E code); cbn; [|reflexivity].
    destruct (get_prop E err "message") as [message|]; cbn; [|reflexivity].
    destruct (ToString E message); reflexivity.
  - destruct (get_prop E v "result"); reflexivity.
Qed.

Lemma sendRequest_outcome method params (w : World NS) :
  sendRequest fetch this method params w
  = (fst (sendRequest fetch this method params w),
     snd (sendRequest fetch this method params w)).
Proof. apply surjective_pairing. Qed.

(** What [sendRequest] makes of the answer of the network. *)
Lemma sendRequest_answered method params (w : World NS) response :
  answers fetch this w method params response ->
  fst (sendRequest fetch this method params w) =
  if negb (ok response) then
    Throw (JSError ("HTTP error! status: " ++ Number_toString E (status response)))
  else
    match JSON_parse E (text response) with
    | Throw e => Throw e
    | Normal jsonResponse =>
        match get_prop E jsonResponse "error" with
        | Throw e => Throw e
        | Normal error =>
            if truthy error then
              match get_prop E error "code" with
              | Throw e => Throw e
              | Normal code =>
                  match ToString E code with
                  | Throw e => Throw e
                  | Normal code_text =>
                      match get_prop E error "message" with
                      | Throw e => Throw e
                      | Normal message =>
                          match ToString E message with
                          | Throw e => Throw e
                          | Normal message_text =>
                              Throw (JSError ("JSON-RPC error " ++ code_text
                                              ++ ": " ++ message_text))
                          end
                      end
                  end
              end
            else get_prop E jsonResponse "result"
        end
    end.
Proof.
  intros [net' Hfetch].
  unfold sendRequest, bind, increment_requestId, call_fetch, lift, throw.
  cbn [requestId network fetch_calls onError_calls logging_messages].
  unfold posted_init in Hfetch. rewrite Hfetch. cbn.
  destruct (ok response); cbn; [|reflexivity].
  destruct (JSON_parse E (text response)) as [v|e]; cbn; [|reflexivity].
  destruct (get_prop E v "error") as [err|e]; cbn; [|reflexivity].
  destruct (truthy err); cbn.
  - destruct (get_prop E err "code") as [code|]; cbn; [|reflexivity].
    destruct (ToString E code); cbn; [|reflexivity].
    destruct (get_prop E err "message") as [message|]; cbn; [|reflexivity].
    destruct (ToString E message); reflexivity.
  - destruct (get_prop E v "result"); reflexivity.
Qed.

(** The headers of the request: a configured header wins over the
    default [Content-Type]. *)
Lemma request_headers_lookup name :
  request_headers this !! name =
  match options_headers this ≫= (fun configured => configured !! name) with
  | Some value => Some value
  | None => if String.eqb name "Content-Type" then Some "application/json" else None
  end.
Proof.
  unfold request_headers, spread.
  destruct (options_headers this) as [configured|]; cbn.
  - rewrite lookup_union. destruct (configured !! name) as [value|] eqn:Hc.
    + rewrite union_Some_l. reflexivity.
    + rewrite (left_id None _).
      destruct (String.eqb_spec name "Content-Type") as [->|Hne].
      * apply lookup_singleton_eq.
      * apply lookup_singleton_ne. congruence.
  - destruct (String.eqb_spec name "Content-Type") as [->|Hne].
    + apply lookup_singleton_eq.
    + apply lookup_singleton_ne. congruence.
Qed.

(** A filter on the names of the properties goes through a spread. *)
Lemma entries_under_union name (m1 m2 : gmap string string) :
  entries_under name (m1 ∪ m2) = entries_under name m1 ∪ entries_under name m2.
Proof.
  unfold entries_under. apply map_eq. intros i.
  rewrite lookup_union, !map_lookup_filter, lookup_union.
  destruct (m1 !! i) as [x1|], (m2 !! i) as [x2|]; cbn;
    repeat case_guard; cbn in *; try reflexivity; contradiction.
Qed.

Lemma entries_under_Content_Type :
  entries_under "Content-Type" {[ "Content-Type" := "application/json" ]}
  = ({[ "Content-Type" := "application/json" ]} : gmap string string).
Proof.
  unfold entries_under. apply map_filter_singleton_True. reflexivity.
Qed.


(** *** The nine handlers *)

Lemma setupHandlers_lookup handlers k :
  setupHandlers fetch this handlers !! method_name k
  = Some (forwarding_handler fetch this (method_name k)).
Proof.
  unfold setupHandlers, setRequestHandler, InitializeRequestSchema,
    ListToolsRequestSchema, CallToolRequestSchema, ListResourcesRequestSchema,
    ReadResourceRequestSchema, SubscribeRequestSchema, UnsubscribeRequestSchema,
    ListPromptsRequestSchema, GetPromptRequestSchema.
  destruct k; cbn [method_name];
    repeat (rewrite lookup_insert_ne by discriminate);
    apply lookup_insert_eq.
Qed.

Lemma deliver_registered handlers k params (w : World NS) :
  deliver (setupHandlers fetch this handlers)
    {| request_method := method_name k; request_params := params |} w
  = forwarding_handler fetch this (method_name k)
      {| request_method := method_name k; request_params := params |} w.
Proof.
  unfold deliver. cbn [request_method]. rewrite setupHandlers_lookup. reflexivity.
Qed.

Lemma remote_failure_outcome method params (w : World NS) response e :
  answers fetch this w method params response ->
  remote_failure response e ->
  fst (sendRequest fetch this method params w) = Throw e
  /\ exists message, e = JSError message.
Proof.
  intros Hanswer Hfail. rewrite (sendRequest_answered _ _ _ _ Hanswer).
  destruct Hfail as [Hok | o error c m Hok Hparse Herror Hcode Hmessage].
  - rewrite Hok. cbn. eauto.
  - rewrite Hok, Hparse. cbn. rewrite Herror. cbn. rewrite Hcode, Hmessage.
    cbn. eauto.
Qed.

(** C8.  For each of the nine methods [k]: when the remote answers the
    forwarded request with a success status and a JSON-RPC response [o]
    without an [error] field, the handler registered for [k] returns
    [o.result] as it is, and the error callback is not called (nor is a
    logging message sent). *)
Theorem forwarded_result handlers k params (w : World NS) response o :
  answers fetch this w (method_name k) params response ->
  ok response = true ->
  JSON_parse E (text response) = Normal (JObj o) ->
  obj_get o "error" = JUndefined ->
  exists w',
    deliver (setupHandlers fetch this handlers)
      {| request_method := method_name k; request_params := params |} w
    = (Normal (obj_get o "result"), w')
    /\ onError_calls w' = onError_calls w
    /\ logging_messages w' = logging_messages w.
Proof.
  intros Hanswer Hok Hparse Herror.
  rewrite deliver_registered. unfold forwarding_handler, try_catch.
  cbn [request_params request_method].
  rewrite sendRequest_outcome, (sendRequest_answered _ _ _ _ Hanswer),
    sendRequest_world.
  rewrite Hok, Hparse. cbn. rewrite Herror. cbn.
  eexists. split; [reflexivity|]. split; reflexivity.
Qed.

(** C7.  For each of the nine methods [k], on a client with an error
    callback: when the remote answer is a JSON-RPC response with an
    [error] object of code [c] and message [m], or has a status that is
    not a success ([remote_failure]), the handler registered for [k]
    fails with the error whose message holds [c] and [m], or the status,
    and the callback has been called exactly once more by then, with the
    method name of the inbound request and that error. *)
Theorem forwarded_failure handlers k params (w : World NS) response e callback :
  options_onError this = Some callback ->
  answers fetch this w (method_name k) params response ->
  remote_failure response e ->
  exists w',
    deliver (setupHandlers fetch this handlers)
      {| request_method := method_name k; request_params := params |} w
    = (Throw e, w')
    /\ onError_calls w' = (onError_calls w ++ [(method_name k, e)])%list.
Proof.
  intros Hcallback Hanswer Hfail.
  destruct (remote_failure_outcome _ _ _ _ _ Hanswer Hfail) as (Hout & message & ->).
  rewrite deliver_registered. unfold forwarding_handler, try_catch.
  cbn [request_params request_method].
  rewrite sendRequest_outcome, Hout, sendRequest_world.
  unfold call_onError. rewrite Hcallback.
  destruct callback; cbn; eexists; split; reflexivity.
Qed.

(** *** The request identifier *)

Lemma sent_bodies_sendRequest method params (w : World NS) :
  sent_bodies (snd (sendRequest fetch this method params w))
  = (sent_bodies w ++
     [JSON_stringify E
        (request_object (js_increment (requestId w)) method params)])%list.
Proof.
  rewrite sendRequest_world. unfold sent_bodies.
  cbn [fetch_calls]. rewrite map_app. reflexivity.
Qed.

(** A sequence of calls of [sendRequest] moves the counter once a call
    and posts the bodies it builds on the way. *)
Lemma send_requests_run calls : forall (w : World NS),
  requestId (send_requests fetch this calls w) = counter_after (requestId w) calls
  /\ sent_bodies (send_requests fetch this calls w)
     = (sent_bodies w ++ posted_bodies (requestId w) calls)%list.
Proof.
  induction calls as [|[method params] rest IH]; intros w.
  - cbn. rewrite app_nil_r. split; reflexivity.
  - cbn [send_requests posted_bodies counter_after fold_left].
    destruct (IH (snd (sendRequest fetch this method params w)))
      as [IHid IHbodies].
    rewrite sendRequest_world in IHid at 2. cbn [requestId] in IHid.
    split; [exact IHid|].
    rewrite IHbodies, sent_bodies_sendRequest, <- app_assoc.
    rewrite sendRequest_world at 1. reflexivity.
Qed.

Lemma posted_bodies_length calls : forall counter,
  List.length (posted_bodies counter calls) = List.length calls.
Proof.
  induction calls as [|[method params] rest IH]; intros counter; [reflexivity|].
  cbn [posted_bodies List.length]. rewrite IH. reflexivity.
Qed.

(** C9, amended.  On a client whose counter starts at 0, any sequence of
    calls of [sendRequest] posts one body per call, and the body of the
    n-th call is the text of the request that holds the version, the
    identifier [id_of_request n], the method and the parameters of that
    call.  The identifier [id_of_request n] is [n] as long as
    [n <= 2^53], so each of these is strictly greater than those before
    it; from the [2^53]-th request on it stays [2^53], and no identifier
    is ever smaller than an earlier one. *)
Theorem request_identifiers net calls :
  let bodies := sent_bodies (send_requests fetch this calls (new_World net)) in
  List.length bodies = List.length calls
  /\ (forall n method params,
        nth_error calls n = Some (method, params) ->
        nth_error bodies n
        = Some (JSON_stringify E
                  (JObj [("jsonrpc", JStr "2.0");
                         ("id", JNum (number_of_Z
                                        (id_of_request (1 + Z.of_nat n))));
                         ("method", JStr method); ("params", params)])))
  /\ (forall n, 1 <= n <= 2 ^ 53 -> id_of_request n = n)
  /\ (forall m n, 1 <= m < n -> n <= 2 ^ 53 -> id_of_request m < id_of_request n)
  /\ (forall n, 2 ^ 53 <= n -> id_of_request n = 2 ^ 53)
  /\ (forall m n, m <= n -> id_of_request m <= id_of_request n).
Proof.
  cbv zeta.
  destruct (send_requests_run calls (new_World net)) as [_ ->].
  cbn [sent_bodies new_World fetch_calls map app requestId].
  split; [apply posted_bodies_length|].
  split; [|unfold id_of_request; repeat split; intros; lia].
  assert (Hnth : forall calls counter n method params,
            0 <= counter <= 2 ^ 53 ->
            nth_error calls n = Some (method, params) ->
            nth_error (posted_bodies counter calls) n
            = Some (JSON_stringify E
                      (JObj [("jsonrpc", JStr "2.0");
                             ("id", JNum (number_of_Z
                                            (id_of_request
                                               (counter + 1 + Z.of_nat n))));
                             ("method", JStr method); ("params", params)]))).
  { clear calls. induction calls as [|[method' params'] rest IH];
      intros counter n method params Hcounter H.
    - destruct n; discriminate H.
    - assert (Hnext : js_increment counter = id_of_request (counter + 1))
        by (unfold js_increment, id_of_request;
            destruct (Z.ltb_spec counter (2 ^ 53)); lia).
      destruct n as [|n]; cbn [nth_error posted_bodies] in *.
      + injection H as -> ->. rewrite Hnext, Z.add_0_r. reflexivity.
      + rewrite (IH (js_increment counter) n method params); [|rewrite Hnext|exact H].
        * do 2 f_equal. unfold request_object.
          replace (id_of_request (js_increment counter + 1 + Z.of_nat n))
            with (id_of_request (counter + 1 + Z.of_nat (S n)));
            [reflexivity|].
          rewrite Hnext. unfold id_of_request. lia.
        * unfold id_of_request. lia. }
  intros n method params H.
  rewrite (Hnth calls 0 n method params); [|lia|exact H].
  do 7 f_equal. 
Qed.

End Properties.

(** *** The counter against the numbers of JavaScript

    [js_increment] on integers agrees with the binary64 sum [n + 1] at
    both ends of the range it is exact on, and where it stops. *)
Example js_increment_is_the_float_sum :
  Forall (fun n => number_of_Z (js_increment n)
                   = PrimFloat.add (number_of_Z n) 1)
    [0; 1; 2 ^ 53 - 2; 2 ^ 53 - 1; 2 ^ 53].
Proof. repeat constructor. Qed.

Lemma posted_bodies_app {E : JSEngine} calls1 calls2 : forall counter,
  posted_bodies counter (calls1 ++ calls2)
  = (posted_bodies counter calls1
     ++ posted_bodies (counter_after counter calls1) calls2)%list.
Proof.
  induction calls1 as [|[method params] rest IH]; intros counter; [reflexivity|].
  cbn [app posted_bodies counter_after fold_left]. rewrite IH. reflexivity.
Qed.

Lemma counter_after_last calls call counter :
  counter_after counter (calls ++ [call])
  = js_increment (counter_after counter calls).
Proof. apply fold_left_app. Qed.

(** The counter counts the calls up to [2^53] and stops there. *)
Lemma counter_after_saturates calls : forall counter,
  0 <= counter <= 2 ^ 53 ->
  counter_after counter calls
  = Z.min (counter + Z.of_nat (List.length calls)) (2 ^ 53).
Proof.
  induction calls as [|call rest IH]; intros counter Hcounter.
  - cbn. lia.
  - change (counter_after counter (call :: rest))
      with (counter_after (js_increment counter) rest).
    rewrite IH, length_cons; unfold js_increment;
      destruct (Z.ltb_spec counter (2 ^ 53)); lia.
Qed.

(** *** The theorems at work on the example client *)


(** A [content-type] configured in lower case does not replace the
    default one: the headers object holds both properties, and both values
    are sent under [Content-Type]. *)
Example configured_lower_case_is_sent_besides :
  exists call,
    fetch_calls (snd (sendRequest (E := SmallEngine.engine) Example.fetch
                        Demo.client_lower_case "tools/list" (JObj [])
                        (new_World [])))
    = [call]
    /\ init_headers (fetch_init call) !! "Content-Type" = Some "application/json"
    /\ init_headers (fetch_init call) !! "content-type" = Some "text/plain"
    /\ entries_under "Content-Type" (init_headers (fetch_init call))
       = {[ "content-type" := "text/plain";
            "Content-Type" := "application/json" ]}.
Proof.
  eexists. split; [reflexivity|]. split; [reflexivity|]. split; [reflexivity|].
  cbn [fetch_init init_headers].
  change (request_headers Demo.client_lower_case)
    with ({[ "content-type" := "text/plain" ]}
          ∪ ({[ "Content-Type" := "application/json" ]} : gmap string string)).
  rewrite entries_under_union, entries_under_Content_Type.
  unfold entries_under. rewrite map_filter_singleton_True by reflexivity.
  rewrite <- insert_union_singleton_l. reflexivity.
Qed.

(** C9, as stated, fails: after [2^53] requests the counter holds [2^53],
    the identifier of the last of them, and the next request carries
    [2^53] again, which is not greater: the last two bodies are the same
    text. *)
Lemma request_identifier_repeats :
  requestId (send_requests (E := SmallEngine.engine) Example.fetch Example.client
               Example.many_requests (new_World []))
  = 2 ^ 53
  /\ List.length Example.many_requests = Z.to_nat (2 ^ 53)
  /\ exists earlier,
       sent_bodies (send_requests (E := SmallEngine.engine) Example.fetch
                      Example.client
                      (Example.many_requests ++ [("tools/list", JUndefined)])
                      (new_World []))
       = (earlier
          ++ [json "{'jsonrpc':'2.0','id':9007199254740992,'method':'tools/list'}";
              json "{'jsonrpc':'2.0','id':9007199254740992,'method':'tools/list'}"])%list.
Proof.
  assert (Hsplit : Example.many_requests
                   = (repeat ("tools/list", JUndefined) (Z.to_nat (2 ^ 53 - 1))
                      ++ [("tools/list", JUndefined)])%list).
  { unfold Example.many_requests.
    replace (Z.to_nat (2 ^ 53)) with (Z.to_nat (2 ^ 53 - 1) + 1)%nat by lia.
    rewrite repeat_app. reflexivity. }
  split; [|split].
  - destruct (send_requests_run (E := SmallEngine.engine) Example.fetch
                Example.client Example.many_requests (new_World [])) as [-> _].
    cbn [requestId new_World].
    rewrite Hsplit, counter_after_last, counter_after_saturates by lia.
    rewrite repeat_length, Z2Nat.id by lia.
    vm_compute. reflexivity.
  - unfold Example.many_requests. apply repeat_length.
  - destruct (send_requests_run (E := SmallEngine.engine) Example.fetch
                Example.client
                (Example.many_requests ++ [("tools/list", JUndefined)])
                (new_World [])) as [_ ->].
    cbn [sent_bodies new_World fetch_calls map app requestId].
    rewrite Hsplit, <- app_assoc, posted_bodies_app.
    rewrite counter_after_saturates by lia.
    rewrite repeat_length, Z2Nat.id by lia.
    exists (posted_bodies (E := SmallEngine.engine) 0
              (repeat ("tools/list", JUndefined) (Z.to_nat (2 ^ 53 - 1)))).
    apply f_equal. vm_compute. reflexivity.
Qed.

Lemma forwarded_result_witness :
  exists w',
    deliver
      (setupHandlers (E := SmallEngine.engine) Example.fetch Example.client ∅)
      {| request_method := "tools/list"; request_params := JObj [] |}
      (new_World
         [Example.response_200
            (json "{'jsonrpc':'2.0','id':1,'result':{'tools':[]}}")])
    = (Normal (JObj [("tools", JArr [])]), w')
    /\ onError_calls w' = []
    /\ logging_messages w' = [].
Proof.
  apply (forwarded_result (E := SmallEngine.engine) Example.fetch Example.client
           ∅ m_tools_list (JObj [])
           (new_World
              [Example.response_200
                 (json "{'jsonrpc':'2.0','id':1,'result':{'tools':[]}}")])
           (Example.response_200
              (json "{'jsonrpc':'2.0','id':1,'result':{'tools':[]}}"))
           [("jsonrpc", JStr "2.0"); ("id", JNum 1);
            ("result", JObj [("tools", JArr [])])]);
    try reflexivity.
  eexists. reflexivity.
Defined.

Lemma forwarded_failure_witness :
  (exists w',
     deliver
       (setupHandlers (E := SmallEngine.engine) Example.fetch Example.client ∅)
       {| request_method := "tools/call";
          request_params := JObj [("name", JStr "calculator")] |}
       (new_World
          [Example.response_200
             (json "{'jsonrpc':'2.0','id':1,'error':{'code':-32603,'message':'Internal error'}}")])
     = (Throw (JSError "JSON-RPC error -32603: Internal error"), w')
     /\ onError_calls w'
        = [("tools/call", JSError "JSON-RPC error -32603: Internal error")])
  /\ (exists w',
        deliver
          (setupHandlers (E := SmallEngine.engine) Example.fetch Example.client ∅)
          {| request_method := "prompts/get"; request_params := JUndefined |}
          (new_World [Example.response_500])
        = (Throw (JSError "HTTP error! status: 500"), w')
        /\ onError_calls w'
           = [("prompts/get", JSError "HTTP error! status: 500")]).
Proof.
  split.
  - apply (forwarded_failure (E := SmallEngine.engine) Example.fetch Example.client
             ∅ m_tools_call (JObj [("name", JStr "calculator")])
             (new_World
                [Example.response_200
                   (json "{'jsonrpc':'2.0','id':1,'error':{'code':-32603,'message':'Internal error'}}")])
             (Example.response_200
                (json "{'jsonrpc':'2.0','id':1,'error':{'code':-32603,'message':'Internal error'}}"))
             (JSError "JSON-RPC error -32603: Internal error")
             Default_onError).
    + reflexivity.
    + eexists. reflexivity.
    + apply (failure_rpc_error (E := SmallEngine.engine) _
               [("jsonrpc", JStr "2.0"); ("id", JNum 1);
                ("error", JObj [("code", JNum (-32603)%float);
                                ("message", JStr "Internal error")])]
               [("code", JNum (-32603)%float); ("message", JStr "Internal error")]
               (-32603)%float "Internal error"); reflexivity.
  - apply (forwarded_failure (E := SmallEngine.engine) Example.fetch Example.client
             ∅ m_prompts_get JUndefined (new_World [Example.response_500])
             Example.response_500 (JSError "HTTP error! status: 500")
             Default_onError).
    + reflexivity.
    + eexists. reflexivity.
    + apply (failure_http_status (E := SmallEngine.engine)). reflexivity.
Defined.

(** *** Runs of the example client *)

(** The default callback logs the failure, with the method name of the
    inbound request, once. *)
Example default_callback_logs :
  logging_messages
    (snd (deliver
            (setupHandlers (E := SmallEngine.engine) Example.fetch Example.client ∅)
            {| request_method := "tools/list"; request_params := JObj [] |}
            (new_World [Example.response_500])))
  = [{| level := "error"; data := "tools/list: HTTP error! status: 500" |}].
Proof. reflexivity. Qed.

(** The request on the wire. *)
Example first_request_body :
  sent_bodies
    (snd (sendRequest (E := SmallEngine.engine) Example.fetch Example.client
            "tools/list" (JObj []) (new_World [])))
  = [json "{'jsonrpc':'2.0','id':1,'method':'tools/list','params':{}}"].
Proof. reflexivity. Qed.

(** The first three identifiers. *)
Example three_requests :
  sent_bodies
    (send_requests (E := SmallEngine.engine) Example.fetch Example.client
       [("initialize", JUndefined); ("tools/list", JUndefined);
        ("prompts/list", JUndefined)]
       (new_World []))
  = [json "{'jsonrpc':'2.0','id':1,'method':'initialize'}";
     json "{'jsonrpc':'2.0','id':2,'method':'tools/list'}";
     json "{'jsonrpc':'2.0','id':3,'method':'prompts/list'}"].
Proof. reflexivity. Qed.

End ForwarderSpec.
(** ** More of the receiver *)

Module ReceiverMore.

Import Receiver Table Observe Shape ReceiverSpec.

#[local] Arguments toLowerCase : simpl never.

(** *** Steps that keep a relation *)

#[local] Instance headers_kept_frame {RS} : Frame (@headers_kept RS).
Proof.
  split.
  - intros w name _. reflexivity.
  - intros w1 w2 w3 H12 H23 name Hn. rewrite (H23 name Hn). apply H12, Hn.
Qed.

#[local] Instance router_kept_frame {RS} : Frame (@router_kept RS).
Proof.
  split.
  - intros w. split; reflexivity.
  - intros w1 w2 w3 [Hc12 Hs12] [Hc23 Hs23]. split; congruence.
Qed.

#[local] Instance response_kept_frame {RS} : Frame (@response_kept RS).
Proof.
  split.
  - intros w. reflexivity.
  - intros w1 w2 w3 H12 H23. unfold response_kept in *. congruence.
Qed.

Section Framing.

Context {RS : Type} (P : World RS -> World RS -> Prop) `{!Frame P}.

Lemma framed_ret {A} (a : A) : framed P (ret a).
Proof. intros w. apply frame_refl. Qed.

Lemma framed_throw {A} e : framed P (@throw (World RS) A e).
Proof. intros w. apply frame_refl. Qed.

Lemma framed_lift {A} (c : Completion A) : framed P (lift c).
Proof. intros w. apply frame_refl. Qed.

Lemma framed_bind {A B} (c : M (World RS) A) (k : A -> M (World RS) B) :
  framed P c -> (forall a, framed P (k a)) -> framed P (bind c k).
Proof.
  intros Hc Hk w. unfold bind. specialize (Hc w).
  destruct (c w) as [[a|e] w1]; cbn [snd] in *.
  - eapply frame_trans; [exact Hc|apply Hk].
  - exact Hc.
Qed.

Lemma framed_try_catch {A} (c : M (World RS) A) (h : Thrown -> M (World RS) A) :
  framed P c -> (forall e, framed P (h e)) -> framed P (try_catch c h).
Proof.
  intros Hc Hh w. unfold try_catch. specialize (Hc w).
  destruct (c w) as [[a|e] w1]; cbn [snd] in *.
  - exact Hc.
  - eapply frame_trans; [exact Hc|apply Hh].
Qed.

End Framing.

(** Splits a step into its parts, down to the calls of the router and the
    writes to the response. *)
Ltac frame_steps :=
  repeat first
    [ apply framed_ret | apply framed_throw | apply framed_lift
    | apply framed_bind | apply framed_try_catch
    | progress intros
    | match goal with
      | |- Frame _ => typeclasses eauto
      | |- framed _ (if ?b then _ else _) => destruct b
      | |- framed _ (match ?x with _ => _ end) => destruct x
      end ].

Section Properties.

Context {E : JSEngine} {RS : Type}.
Variable this : HTTPAdapter RS.

Lemma invoke_keeps_response call : framed response_kept (invoke this call).
Proof.
  intros w. unfold invoke, response_kept.
  destruct (perform (router this) call (router_state w)). reflexivity.
Qed.

Lemma invoke_keeps_headers call : framed headers_kept (invoke this call).
Proof.
  intros w name _. unfold invoke.
  destruct (perform (router this) call (router_state w)). reflexivity.
Qed.

Lemma handleMethod_keeps_response method params :
  framed response_kept (handleMethod this method params).
Proof.
  unfold handleMethod. frame_steps; apply invoke_keeps_response.
Qed.

Lemma set_statusCode_keeps_headers code :
  framed (@headers_kept RS) (on_res (set_statusCode code)).
Proof. intros w name _. reflexivity. Qed.

Lemma end_keeps_headers data : framed (@headers_kept RS) (on_res (end_ data)).
Proof.
  intros w name _. unfold on_res, end_, modify, getHeader. cbn.
  destruct (finished (res w)); reflexivity.
Qed.

Lemma setHeader_keeps_headers value :
  framed (@headers_kept RS) (on_res (setHeader "Content-Type" value)).
Proof.
  intros w name Hn. unfold on_res, setHeader, getHeader.
  destruct (finished (res w)); cbn; [reflexivity|].
  lower. apply lookup_insert_ne. congruence.
Qed.

Lemma sendJSON_keeps_headers status data :
  framed (@headers_kept RS) (sendJSON (E := E) status data).
Proof.
  unfold sendJSON. frame_steps;
    [apply set_statusCode_keeps_headers | apply setHeader_keeps_headers
    | apply end_keeps_headers].
Qed.

Lemma handleMethod_keeps_headers method params :
  framed headers_kept (handleMethod this method params).
Proof.
  unfold handleMethod. frame_steps; apply invoke_keeps_headers.
Qed.


(** *** The branches of [handle] before the body is read *)

Lemma setCORSHeaders_run (w : World RS) :
  finished (res w) = None ->
  exists r,
    setCORSHeaders this w = (Normal tt, with_res w r)
    /\ finished r = None
    /\ statusCode r = statusCode (res w)
    /\ (cors this = true -> has_cors_headers r)
    /\ (cors this = false -> r = res w)
    /\ getHeader r "Content-Type" = getHeader (res w) "Content-Type".
Proof.
  intros H. unfold setCORSHeaders. destruct (cors this).
  - eexists. split.
    + erewrite bind_Normal by (apply setHeader_unsent; exact H).
      erewrite bind_Normal by (apply setHeader_unsent; reflexivity).
      rewrite setHeader_unsent by reflexivity. reflexivity.
    + unfold has_cors_headers, getHeader.
      cbn [res with_res headers finished statusCode].
      lower. repeat split; intros; try discriminate; simplify_map_eq; done.
  - exists (res w). unfold with_res. destruct w.
    repeat split; try discriminate; auto.
Qed.

Lemma get_prop_defined v k :
  v <> JNull -> v <> JUndefined -> exists x, get_prop E v k = Normal x.
Proof. intros Hn Hu. destruct v; cbn; eauto; contradiction. Qed.


(** [handle] answers a matched POST whose body parses to anything but
    [null], in one of three ways: helper of the theorems below. *)
Lemma handle_parsed_run req (w : World RS) v :
  url req = path this -> method req = "POST" -> finished (res w) = None ->
  JSON_parse E (read_body req) = Normal v ->
  v <> JNull -> v <> JUndefined ->
  exists w' method params id,
    handle this req w = (Normal true, w')
    /\ get_prop E v "method" = Normal method
    /\ get_prop E v "params" = Normal params
    /\ get_prop E v "id" = Normal id
    /\ ((exists result r w2,
           handleMethod this method params (with_res w r) = (Normal result, w2)
           /\ sent_json E (res w') 200
                (success_response (nullish id JNull) result))
        \/ sent_json E (res w') 200
             (error_response (nullish id JNull) (-32600)%float
                "Invalid Request" JUndefined)
        \/ (exists e,
              sent_json E (res w') 200
                (error_response (nullish id JNull) (-32603)%float
                   "Internal error" (JStr (message_or e "Unknown error"))))).
Proof.
  intros Hurl Hmethod Hfin Hparse Hnull Hundef.
  destruct (handle_post this req w Hurl Hmethod Hfin) as (r & Hr & _ & ->).
  rewrite Hparse.
  destruct (get_prop_defined v "jsonrpc" Hnull Hundef) as (jsonrpc & Hj).
  destruct (get_prop_defined v "method" Hnull Hundef) as (m & Hm).
  destruct (get_prop_defined v "params" Hnull Hundef) as (p & Hp).
  destruct (get_prop_defined v "id" Hnull Hundef) as (id & Hid).
  assert (Hinv : exists invalid,
            invalid_request v (with_res w r) = (Normal invalid, with_res w r)).
  { unfold invalid_request, bind, lift, ret. rewrite Hj.
    destruct (negb (strict_eq_string jsonrpc "2.0")); [eauto|].
    rewrite Hm. eauto. }
  destruct Hinv as (invalid & Hinv).
  erewrite bind_Normal by exact Hinv.
  assert (Hrid : forall w0 : World RS, request_id v w0 = (Normal (nullish id JNull), w0)).
  { intros w0. unfold request_id, bind, lift, ret. rewrite Hid. reflexivity. }
  rewrite Hm, Hp, Hid.
  destruct invalid.
  - erewrite bind_Normal by apply Hrid.
    destruct (sendError_unsent (nullish id JNull) (-32600)%float
                "Invalid Request" JUndefined w r Hr)
      as (w' & Hsend & Hsent & _).
    exists w', m, p, id. split; [exact Hsend|].
    split; [reflexivity|]. split; [reflexivity|]. split; [reflexivity|].
    right. left. exact Hsent.
  - unfold bind at 1, try_catch.
    unfold bind at 1, lift at 1.
    unfold bind at 1, lift at 1.
    unfold bind at 1.
    pose proof (handleMethod_keeps_response m p (with_res w r)) as Hres.
    unfold response_kept in Hres.
    destruct (handleMethod this m p (with_res w r)) as [[result|e] w2] eqn:Hrun;
      cbn [snd res with_res] in Hres.
    + erewrite bind_Normal by apply Hrid.
      destruct (sendJSON_unsent 200
                  (success_response (nullish id JNull) result) w2)
        as (r' & Hsend & Hsent & _); [rewrite Hres; exact Hr|].
      rewrite Hsend.
      exists (with_res w2 r'), m, p, id. split; [reflexivity|].
      split; [reflexivity|]. split; [reflexivity|]. split; [reflexivity|].
      left. exists result, r, w2. split; [exact Hrun|exact Hsent].
    + cbv zeta. erewrite bind_Normal by apply Hrid.
      destruct (sendError_unsent (nullish id JNull) (-32603)%float
                  "Internal error" (JStr (message_or e "Unknown error"))
                  w2 (res w2)) as (w' & Hsend & Hsent & _);
        [rewrite Hres; exact Hr|].
      assert (Hw2 : with_res w2 (res w2) = w2) by (destruct w2; reflexivity).
      rewrite Hw2 in Hsend.
      unfold sendError, bind, ret in Hsend |- *.
      destruct (sendJSON 200 _ w2) as [[[]|?] ?]; [|discriminate].
      injection Hsend as <-.
      eexists _, m, p, id. split; [reflexivity|].
      split; [reflexivity|]. split; [reflexivity|]. split; [reflexivity|].
      right. right. exists e. exact Hsent.
Qed.


Lemma on_res_keeps_router {A} (c : M ServerResponse A) :
  framed (@router_kept RS) (on_res c).
Proof.
  intros w. unfold on_res. destruct (c (res w)). split; reflexivity.
Qed.

(** Proves that a step made of writes to the response keeps the router. *)
Ltac router_untouched :=
  unfold sendError, sendJSON, invalid_request, request_id;
  frame_steps; apply on_res_keeps_router.

(** Proves that a step of [handle] keeps the headers but [Content-Type]. *)
Ltac headers_untouched :=
  unfold sendError, sendJSON, invalid_request, request_id;
  frame_steps;
  first [ apply set_statusCode_keeps_headers | apply setHeader_keeps_headers
        | apply end_keeps_headers | apply handleMethod_keeps_headers ].

Lemma handle_options_run req (w : World RS) :
  url req = path this -> method req = "OPTIONS" -> finished (res w) = None ->
  exists w',
    handle this req w = (Normal true, w')
    /\ statusCode (res w') = 204
    /\ finished (res w') = Some ""
    /\ (cors this = true -> has_cors_headers (res w'))
    /\ (cors this = false -> headers (res w') = headers (res w))
    /\ getHeader (res w') "Content-Type" = getHeader (res w) "Content-Type"
    /\ router_kept w w'.
Proof.
  intros Hurl Hmethod Hfin.
  destruct (setCORSHeaders_run w Hfin) as (r & Hc & Hr & _ & Hon & Hoff & Hct).
  unfold handle. rewrite Hurl, String.eqb_refl, Hmethod. cbn [negb].
  erewrite bind_Normal by exact Hc.
  unfold on_res, set_statusCode, end_, modify, bind, ret. cbn. rewrite Hr.
  eexists. split; [reflexivity|]. cbn.
  split; [reflexivity|]. split; [reflexivity|].
  split; [intros Hcors; destruct (Hon Hcors) as (? & ? & ?); repeat split; assumption|].
  split; [intros Hcors; rewrite (Hoff Hcors); reflexivity|].
  split; [exact Hct|]. split; reflexivity.
Qed.

Lemma handle_other_method_run req (w : World RS) :
  url req = path this -> method req <> "OPTIONS" -> method req <> "POST" ->
  finished (res w) = None ->
  exists w',
    handle this req w = (Normal true, w')
    /\ sent_json E (res w') 200
         (error_response JNull (-32600)%float
            "Invalid Request: Only POST is supported" JUndefined)
    /\ router_kept w w'.
Proof.
  intros Hurl Hoptions Hpost Hfin.
  destruct (setCORSHeaders_run w Hfin) as (r & Hc & Hr & _).
  unfold handle. rewrite Hurl, String.eqb_refl. cbn [negb].
  erewrite bind_Normal by exact Hc.
  destruct (String.eqb_spec (method req) "OPTIONS"); [contradiction|].
  destruct (String.eqb_spec (method req) "POST"); [contradiction|].
  cbn [negb].
  destruct (sendError_unsent JNull (-32600)%float
              "Invalid Request: Only POST is supported" JUndefined w r Hr)
    as (w' & Hsend & Hsent & Hcalls & Hstate).
  exists w'. split; [exact Hsend|]. split; [exact Hsent|]. split; assumption.
Qed.


(** *** Counting the calls of the router *)

Lemma quiet_calls {A} n (c : M (World RS) A) :
  framed router_kept c -> calls_router_at_most n c.
Proof.
  intros H w. exists []. destruct (H w) as [Hc _].
  rewrite app_nil_r. split; [exact Hc|cbn; lia].
Qed.

Lemma invoke_calls call : calls_router_at_most 1 (invoke this call).
Proof.
  intros w. exists [call]. unfold invoke.
  destruct (perform (router this) call (router_state w)).
  split; [reflexivity|cbn; lia].
Qed.

Lemma bind_calls_first {A B} n (c : M (World RS) A) (k : A -> M (World RS) B) :
  framed router_kept c -> (forall a, calls_router_at_most n (k a)) ->
  calls_router_at_most n (bind c k).
Proof.
  intros Hc Hk w. unfold bind. destruct (Hc w) as [Hcalls _].
  destruct (c w) as [[a|e] w1]; cbn [snd] in *.
  - destruct (Hk a w1) as (calls & Hk1 & Hlen). exists calls.
    rewrite Hk1, Hcalls. split; [reflexivity|exact Hlen].
  - exists []. rewrite app_nil_r. split; [exact Hcalls|cbn; lia].
Qed.

Lemma bind_calls_last {A B} n (c : M (World RS) A) (k : A -> M (World RS) B) :
  calls_router_at_most n c -> (forall a, framed router_kept (k a)) ->
  calls_router_at_most n (bind c k).
Proof.
  intros Hc Hk w. unfold bind. destruct (Hc w) as (calls & Hcalls & Hlen).
  destruct (c w) as [[a|e] w1]; cbn [snd] in *.
  - exists calls. destruct (Hk a w1) as [Hk1 _]. rewrite Hk1.
    split; [exact Hcalls|exact Hlen].
  - exists calls. split; [exact Hcalls|exact Hlen].
Qed.

Lemma try_catch_calls {A} n (c : M (World RS) A) (h : Thrown -> M (World RS) A) :
  calls_router_at_most n c -> (forall e, framed router_kept (h e)) ->
  calls_router_at_most n (try_catch c h).
Proof.
  intros Hc Hh w. unfold try_catch. destruct (Hc w) as (calls & Hcalls & Hlen).
  destruct (c w) as [[a|e] w1]; cbn [snd] in *.
  - exists calls. split; [exact Hcalls|exact Hlen].
  - exists calls. destruct (Hh e w1) as [Hh1 _]. rewrite Hh1.
    split; [exact Hcalls|exact Hlen].
Qed.

Lemma handleMethod_calls method params :
  calls_router_at_most 1 (handleMethod this method params).
Proof.
  unfold handleMethod.
  repeat match goal with
         | |- calls_router_at_most _ (if ?b then _ else _) => destruct b
         end;
    repeat first
      [ apply invoke_calls
      | apply bind_calls_first; [solve [frame_steps]|intros]
      | apply bind_calls_last; [|intros; solve [frame_steps]]
      | apply quiet_calls; solve [frame_steps] ].
Qed.


(** *** Properties *)

(** X1.  A preflight: an OPTIONS request to the configured path is
    answered with status 204 and an empty body, whatever its body; the
    three CORS headers are set when CORS is enabled and no header changes
    when it is not; no [Content-Type] is set and the router is not
    called. *)
Theorem options_preflight req (w : World RS) :
  url req = path this -> method req = "OPTIONS" -> finished (res w) = None ->
  exists w',
    handle this req w = (Normal true, w')
    /\ statusCode (res w') = 204
    /\ finished (res w') = Some ""
    /\ (cors this = true -> has_cors_headers (res w'))
    /\ (cors this = false -> headers (res w') = headers (res w))
    /\ getHeader (res w') "Content-Type" = getHeader (res w) "Content-Type"
    /\ router_kept w w'.
Proof. apply handle_options_run. Qed.

(** X2.  A request to the configured path whose method is neither
    OPTIONS nor POST is answered with status 200 and the error envelope of
    id [null], code -32600 and message "Invalid Request: Only POST is
    supported" (its [data] is [undefined], which [JSON.stringify] leaves
    out); its body is not read and the router is not called. *)
Theorem only_post_is_dispatched req (w : World RS) :
  url req = path this -> method req <> "OPTIONS" -> method req <> "POST" ->
  finished (res w) = None ->
  exists w',
    handle this req w = (Normal true, w')
    /\ sent_json E (res w') 200
         (JObj [("jsonrpc", JStr "2.0"); ("id", JNull);
                ("error",
                 JObj [("code", JNum (-32600)%float);
                       ("message", JStr "Invalid Request: Only POST is supported");
                       ("data", JUndefined)])])
    /\ router_kept w w'.
Proof.
  intros Hurl Hoptions Hpost Hfin.
  destruct (handle_other_method_run req w Hurl Hoptions Hpost Hfin)
    as (w' & Hh & Hsent & Hkept).
  exists w'. split; [exact Hh|]. split; [exact Hsent|exact Hkept].
Qed.

(** X3.  With CORS enabled, whatever [handle] does with a request to the
    configured path, answer it or throw, the response carries the three
    CORS headers afterwards. *)
Theorem cors_headers_on_every_answer req (w : World RS) :
  url req = path this -> cors this = true -> finished (res w) = None ->
  has_cors_headers (res (snd (handle this req w))).
Proof.
  intros Hurl Hcors Hfin.
  destruct (setCORSHeaders_run w Hfin) as (r & Hc & _ & _ & Hon & _).
  unfold handle. rewrite Hurl, String.eqb_refl. cbn [negb].
  unfold bind at 1. rewrite Hc.
  match goal with
  | |- has_cors_headers (res (snd (?k (with_res w r)))) =>
      assert (Hk : framed headers_kept k) by headers_untouched
  end.
  destruct (Hon Hcors) as (H1 & H2 & H3).
  unfold has_cors_headers.
  rewrite !Hk by (lower; discriminate). auto.
Qed.

(** X4.  With CORS disabled, [handle] changes no header of the response
    but [Content-Type], on any request and any response. *)
Theorem cors_disabled_adds_no_header req :
  cors this = false -> framed headers_kept (handle this req).
Proof.
  intros Hcors. unfold handle, setCORSHeaders. rewrite Hcors.
  headers_untouched.
Qed.

(** X5.  The handler of [createHandler] answers a request to another
    path with status 404 and the body "Not Found"; it sets no header and
    does not call the router. *)
Theorem other_path_is_not_found req (w : World RS) :
  url req <> path this -> finished (res w) = None ->
  exists w',
    createHandler this req w = (Normal tt, w')
    /\ statusCode (res w') = 404
    /\ finished (res w') = Some "Not Found"
    /\ headers (res w') = headers (res w)
    /\ router_kept w w'.
Proof.
  intros Hurl Hfin. unfold createHandler, handle.
  destruct (String.eqb_spec (url req) (path this)); [contradiction|].
  cbn [negb]. unfold bind, ret, on_res, set_statusCode, end_, modify. cbn.
  rewrite Hfin. eexists. split; [reflexivity|]. cbn.
  repeat split; reflexivity.
Qed.


(** X7.  The handler of [createHandler] answers every request, with
    status 200, 204 or 404, but the POST to the configured path whose
    body parses to [null]. *)
Theorem createHandler_answers req (w : World RS) :
  finished (res w) = None ->
  (url req = path this -> method req = "POST" ->
   JSON_parse E (read_body req) <> Normal JNull
   /\ JSON_parse E (read_body req) <> Normal JUndefined) ->
  exists w' body,
    createHandler this req w = (Normal tt, w')
    /\ finished (res w') = Some body
    /\ (statusCode (res w') = 200 \/ statusCode (res w') = 204
        \/ statusCode (res w') = 404).
Proof.
  intros Hfin Hnot_null. unfold createHandler.
  destruct (String.eqb_spec (url req) (path this)) as [Hurl|Hurl].
  - assert (Hhandled : exists w' body,
              handle this req w = (Normal true, w')
              /\ finished (res w') = Some body
              /\ (statusCode (res w') = 200 \/ statusCode (res w') = 204
                  \/ statusCode (res w') = 404)).
    { destruct (String.eqb_spec (method req) "OPTIONS") as [Ho|Ho].
      { destruct (handle_options_run req w Hurl Ho Hfin)
          as (w' & Hh & Hs & Hf & _).
        exists w', "". auto. }
      destruct (String.eqb_spec (method req) "POST") as [Hp|Hp].
      2:{ destruct (handle_other_method_run req w Hurl Ho Hp Hfin)
            as (w' & Hh & (Hs & _ & Hf) & _).
          eauto 6. }
      destruct (JSON_parse E (read_body req)) as [v|e] eqn:Hparse.
      - destruct (Hnot_null Hurl Hp) as [Hn Hu].
        destruct (handle_parsed_run req w v Hurl Hp Hfin Hparse)
          as (w' & m & p & id & Hh & _ & _ & _ & Hsent); [congruence..|].
        destruct Hsent as [(result & r & w2 & _ & (Hs & _ & Hf))
                          | [(Hs & _ & Hf) | (e & (Hs & _ & Hf))]];
          eauto 6.
      - destruct (handle_post this req w Hurl Hp Hfin) as (r & Hr & _ & Hh).
        rewrite Hparse in Hh.
        destruct (sendError_unsent JNull (-32700)%float "Parse error"
                    JUndefined w r Hr) as (w' & Hsend & (Hs & _ & Hf) & _).
        rewrite Hsend in Hh. eauto 6. }
    destruct Hhandled as (w' & body & Hh & Hf & Hs).
    erewrite bind_Normal by exact Hh. cbn. eauto.
  - unfold handle.
    destruct (String.eqb_spec (url req) (path this)); [contradiction|].
    cbn [negb]. unfold bind, ret, on_res, set_statusCode, end_, modify. cbn.
    rewrite Hfin. eexists _, _. split; [reflexivity|]. cbn. auto.
Qed.

(** X8.  [handle] calls the router at most once for a request, on any
    request and any response, and only adds to the record of its calls. *)
Theorem at_most_one_router_call req :
  calls_router_at_most 1 (handle this req).
Proof.
  unfold handle.
  destruct (negb (url req =? path this)%string); [apply quiet_calls; frame_steps|].
  apply bind_calls_first.
  { unfold setCORSHeaders. frame_steps; apply on_res_keeps_router. }
  intros _.
  destruct (method req =? "OPTIONS")%string;
    [apply quiet_calls; frame_steps; apply on_res_keeps_router|].
  destruct (negb (method req =? "POST")%string);
    [apply quiet_calls; router_untouched|].
  cbv zeta. destruct (JSON_parse E (read_body req)) as [v|e];
    [|apply quiet_calls; router_untouched].
  apply bind_calls_first; [router_untouched|]. intros [|].
  { apply quiet_calls; router_untouched. }
  apply bind_calls_last; [|intros; frame_steps].
  apply try_catch_calls; [|intros; router_untouched].
  apply bind_calls_first; [frame_steps|]. intros method.
  apply bind_calls_first; [frame_steps|]. intros params.
  apply bind_calls_last; [apply handleMethod_calls|].
  intros result. router_untouched.
Qed.


(** X9.  A valid request for one of the five methods that read their
    parameters, sent with [params] missing or [null], is answered with
    status 200 and the error envelope of code -32603 and message
    "Internal error", whose id is the id of the request, or [null], and
    whose [data] is the message of the [TypeError] of the first read; the
    router is not called. *)
Theorem missing_params_is_internal_error req (w : World RS) o k property :
  url req = path this -> method req = "POST" -> finished (res w) = None ->
  JSON_parse E (read_body req) = Normal (JObj o) ->
  obj_get o "jsonrpc" = JStr "2.0" ->
  obj_get o "method" = JStr (method_name k) ->
  first_read k = Some property ->
  obj_get o "params" = JUndefined \/ obj_get o "params" = JNull ->
  exists w',
    handle this req w = (Normal true, w')
    /\ sent_json E (res w') 200
         (JObj [("jsonrpc", JStr "2.0"); ("id", echoed_id o);
                ("error",
                 JObj [("code", JNum (-32603)%float);
                       ("message", JStr "Internal error");
                       ("data",
                        JStr (TypeError_message E (obj_get o "params")
                                property))])])
    /\ router_kept w w'.
Proof.
  intros Hurl Hmethod Hfin Hparse Hv Hm Hread Hparams.
  destruct (handle_dispatch_throws this req w o
              (JSError (TypeError_message E (obj_get o "params") property))
              (router_state w) [] Hurl Hmethod Hfin Hparse Hv)
    as (w' & Hh & Hsent & Hcalls & Hstate).
  - rewrite Hm. apply method_name_truthy.
  - intros r. rewrite Hm, handleMethod_known, app_nil_r.
    destruct Hparams as [-> | ->];
      destruct k; try discriminate Hread; cbn in Hread;
      injection Hread as <-; reflexivity.
  - echoes Hsent o.
    exists w'. split; [exact Hh|]. split; [exact Hsent|].
    rewrite app_nil_r in Hcalls. split; assumption.
Qed.

(** X10.  A POST to the configured path whose body parses to an object
    with a falsy [method] ([null], [false], the number zero, as well as a
    missing or empty one) is answered with the error envelope of code
    -32600 and message "Invalid Request", whose id is the id of the
    request, or [null], whatever its [jsonrpc]; the router is not
    called. *)
Theorem falsy_method_is_invalid req (w : World RS) o :
  url req = path this -> method req = "POST" -> finished (res w) = None ->
  JSON_parse E (read_body req) = Normal (JObj o) ->
  truthy (obj_get o "method") = false ->
  exists w',
    handle this req w = (Normal true, w')
    /\ sent_json E (res w') 200
         (JObj [("jsonrpc", JStr "2.0"); ("id", echoed_id o);
                ("error", JObj [("code", JNum (-32600)%float);
                                ("message", JStr "Invalid Request");
                                ("data", JUndefined)])])
    /\ router_kept w w'.
Proof.
  intros Hurl Hmethod Hfin Hparse Hfalsy.
  destruct (handle_post this req w Hurl Hmethod Hfin) as (r & Hr & _ & ->).
  rewrite Hparse.
  assert (Hinv : invalid_request (JObj o) (with_res w r)
                 = (Normal true, with_res w r)).
  { unfold invalid_request, bind, lift, ret. cbn.
    destruct (strict_eq_string (obj_get o "jsonrpc") "2.0"); [|reflexivity].
    cbn. rewrite Hfalsy. reflexivity. }
  erewrite bind_Normal by exact Hinv. cbn iota.
  unfold request_id. erewrite bind_Normal by reflexivity.
  destruct (sendError_unsent (nullish (obj_get o "id") JNull) (-32600)%float
              "Invalid Request" JUndefined w r Hr)
    as (w' & Hsend & Hsent & Hcalls & Hstate).
  echoes Hsent o.
  exists w'. split; [exact Hsend|]. split; [exact Hsent|]. split; assumption.
Qed.

(** X11.  A POST to the configured path whose body is JSON but neither
    an object nor [null] (a number, a string, a boolean, an array) is
    answered with the error envelope of id [null], code -32600 and message
    "Invalid Request"; the router is not called. *)
Theorem non_object_body_is_invalid req (w : World RS) v :
  url req = path this -> method req = "POST" -> finished (res w) = None ->
  JSON_parse E (read_body req) = Normal v ->
  v <> JNull -> v <> JUndefined -> (forall o, v <> JObj o) ->
  exists w',
    handle this req w = (Normal true, w')
    /\ sent_json E (res w') 200
         (JObj [("jsonrpc", JStr "2.0"); ("id", JNull);
                ("error", JObj [("code", JNum (-32600)%float);
                                ("message", JStr "Invalid Request");
                                ("data", JUndefined)])])
    /\ router_kept w w'.
Proof.
  intros Hurl Hmethod Hfin Hparse Hnull Hundef Hobj.
  destruct (handle_post this req w Hurl Hmethod Hfin) as (r & Hr & _ & ->).
  rewrite Hparse.
  assert (Hget : forall k, get_prop E v k = Normal JUndefined).
  { intros k. destruct v; try reflexivity; try contradiction.
    exfalso. eapply Hobj. reflexivity. }
  assert (Hinv : invalid_request v (with_res w r)
                 = (Normal true, with_res w r)).
  { unfold invalid_request, bind, lift, ret. rewrite Hget. reflexivity. }
  erewrite bind_Normal by exact Hinv. cbn iota.
  unfold request_id. unfold bind at 1, lift at 1. rewrite Hget. cbn [nullish].
  unfold ret at 1.
  destruct (sendError_unsent JNull (-32600)%float
              "Invalid Request" JUndefined w r Hr)
    as (w' & Hsend & Hsent & Hcalls & Hstate).
  exists w'. split; [exact Hsend|]. split; [exact Hsent|]. split; assumption.
Qed.

End Properties.

(** X13.  An adapter constructed without a path, or with the empty
    path, and without a [cors] option listens on [/mcp/http] only, and
    with CORS enabled: it leaves any other URL, the empty one too, to the
    next handler, and answers a preflight on [/mcp/http] with the CORS
    headers. *)
Theorem constructor_defaults {E : JSEngine} {RS} (options : HTTPAdapterOptions RS)
    req (w : World RS) :
  options_path options = None \/ options_path options = Some "" ->
  options_cors options = None ->
  (url req <> "/mcp/http" ->
   handle (new_HTTPAdapter options) req w = (Normal false, w))
  /\ (url req = "/mcp/http" -> method req = "OPTIONS" ->
      finished (res w) = None ->
      exists w',
        handle (new_HTTPAdapter options) req w = (Normal true, w')
        /\ statusCode (res w') = 204
        /\ has_cors_headers (res w')).
Proof.
  intros Hpath Hcors.
  assert (Hp : path (new_HTTPAdapter options) = "/mcp/http").
  { unfold new_HTTPAdapter. cbn [path]. destruct Hpath as [-> | ->]; reflexivity. }
  assert (Hc : cors (new_HTTPAdapter options) = true).
  { unfold new_HTTPAdapter. cbn [cors]. rewrite Hcors. reflexivity. }
  split.
  - intros Hurl. unfold handle. rewrite Hp.
    destruct (String.eqb_spec (url req) "/mcp/http"); [contradiction|reflexivity].
  - intros Hurl Hmethod Hfin.
    destruct (handle_options_run (new_HTTPAdapter options) req w)
      as (w' & Hh & Hs & _ & Hon & _); [congruence|assumption..|].
    exists w'. auto.
Qed.


(** *** The properties at work on the example server *)

Lemma options_preflight_witness :
  exists w',
    handle (E := SmallEngine.engine) Example.adapter
      (Demo.request "OPTIONS" "/mcp/http" ["ignored"]) Example.world
    = (Normal true, w')
    /\ statusCode (res w') = 204
    /\ finished (res w') = Some ""
    /\ has_cors_headers (res w')
    /\ getHeader (res w') "Content-Type" = None
    /\ router_calls w' = [].
Proof.
  destruct (options_preflight (E := SmallEngine.engine) Example.adapter
              (Demo.request "OPTIONS" "/mcp/http" ["ignored"]) Example.world)
    as (w' & Hh & Hs & Hf & Hon & _ & Hct & Hcalls & _);
    [reflexivity..|].
  exists w'. repeat split; try assumption; apply Hon; reflexivity.
Defined.

Lemma only_post_is_dispatched_witness :
  exists w',
    handle (E := SmallEngine.engine) Example.adapter
      (Demo.request "GET" "/mcp/http" []) Example.world
    = (Normal true, w')
    /\ sent_json SmallEngine.engine (res w') 200
         (JObj [("jsonrpc", JStr "2.0"); ("id", JNull);
                ("error",
                 JObj [("code", JNum (-32600)%float);
                       ("message", JStr "Invalid Request: Only POST is supported");
                       ("data", JUndefined)])])
    /\ router_kept Example.world w'.
Proof.
  apply (only_post_is_dispatched (E := SmallEngine.engine) Example.adapter
           (Demo.request "GET" "/mcp/http" []) Example.world);
    try reflexivity; discriminate.
Defined.

Lemma cors_headers_on_every_answer_witness :
  has_cors_headers
    (res (snd (handle (E := SmallEngine.engine) Example.adapter
                 (Example.post ["null"]) Example.world))).
Proof.
  apply (cors_headers_on_every_answer (E := SmallEngine.engine) Example.adapter
           (Example.post ["null"]) Example.world); reflexivity.
Defined.

Lemma cors_disabled_adds_no_header_witness :
  getHeader
    (res (snd (handle (E := SmallEngine.engine) Demo.adapter_without_cors
                 (Example.post ["{}"]) Demo.world_with_header)))
    "X-Request-Id"
  = Some "42".
Proof.
  apply (cors_disabled_adds_no_header (E := SmallEngine.engine)
           Demo.adapter_without_cors (Example.post ["{}"]) eq_refl
           Demo.world_with_header "X-Request-Id").
  vm_compute. discriminate.
Defined.

Lemma other_path_is_not_found_witness :
  exists w',
    createHandler (E := SmallEngine.engine) Example.adapter
      (Demo.request "POST" "/mcp/http/" ["{}"]) Example.world
    = (Normal tt, w')
    /\ statusCode (res w') = 404
    /\ finished (res w') = Some "Not Found"
    /\ headers (res w') = ∅
    /\ router_kept Example.world w'.
Proof.
  apply (other_path_is_not_found (E := SmallEngine.engine) Example.adapter
           (Demo.request "POST" "/mcp/http/" ["{}"]) Example.world);
    [vm_compute; discriminate|reflexivity].
Defined.


Lemma createHandler_answers_witness :
  exists w' body,
    createHandler (E := SmallEngine.engine) Example.adapter
      (Demo.request "DELETE" "/mcp/http" []) Example.world
    = (Normal tt, w')
    /\ finished (res w') = Some body
    /\ (statusCode (res w') = 200 \/ statusCode (res w') = 204
        \/ statusCode (res w') = 404).
Proof.
  apply (createHandler_answers (E := SmallEngine.engine) Example.adapter
           (Demo.request "DELETE" "/mcp/http" []) Example.world);
    [reflexivity|].
  intros _ Hpost. discriminate Hpost.
Defined.

Lemma missing_params_is_internal_error_witness :
  exists w',
    handle (E := SmallEngine.engine) Example.adapter
      (Example.post [json "{'jsonrpc':'2.0','id':7,'method':'resources/read'}"])
      Example.world
    = (Normal true, w')
    /\ sent_json SmallEngine.engine (res w') 200
         (JObj [("jsonrpc", JStr "2.0"); ("id", JNum 7);
                ("error",
                 JObj [("code", JNum (-32603)%float);
                       ("message", JStr "Internal error");
                       ("data",
                        JStr "Cannot read properties of undefined (reading 'uri')")])])
    /\ router_kept Example.world w'.
Proof.
  apply (missing_params_is_internal_error (E := SmallEngine.engine)
           Example.adapter
           (Example.post
              [json "{'jsonrpc':'2.0','id':7,'method':'resources/read'}"])
           Example.world
           [("jsonrpc", JStr "2.0"); ("id", JNum 7);
            ("method", JStr "resources/read")]
           m_resources_read "uri"); try reflexivity.
  left. reflexivity.
Defined.

Lemma falsy_method_is_invalid_witness :
  exists w',
    handle (E := SmallEngine.engine) Example.adapter
      (Example.post [json "{'jsonrpc':'2.0','id':'a','method':0}"])
      Example.world
    = (Normal true, w')
    /\ sent_json SmallEngine.engine (res w') 200
         (JObj [("jsonrpc", JStr "2.0"); ("id", JStr "a");
                ("error", JObj [("code", JNum (-32600)%float);
                                ("message", JStr "Invalid Request");
                                ("data", JUndefined)])])
    /\ router_kept Example.world w'.
Proof.
  apply (falsy_method_is_invalid (E := SmallEngine.engine) Example.adapter
           (Example.post [json "{'jsonrpc':'2.0','id':'a','method':0}"])
           Example.world
           [("jsonrpc", JStr "2.0"); ("id", JStr "a"); ("method", JNum 0)]);
    reflexivity.
Defined.

Lemma non_object_body_is_invalid_witness :
  exists w',
    handle (E := SmallEngine.engine) Example.adapter
      (Example.post ["42"]) Example.world
    = (Normal true, w')
    /\ sent_json SmallEngine.engine (res w') 200
         (JObj [("jsonrpc", JStr "2.0"); ("id", JNull);
                ("error", JObj [("code", JNum (-32600)%float);
                                ("message", JStr "Invalid Request");
                                ("data", JUndefined)])])
    /\ router_kept Example.world w'.
Proof.
  apply (non_object_body_is_invalid (E := SmallEngine.engine) Example.adapter
           (Example.post ["42"]) Example.world (JNum 42));
    try reflexivity; discriminate.
Defined.

Lemma constructor_defaults_witness :
  handle (E := SmallEngine.engine) Demo.adapter_by_default
    (Demo.request "OPTIONS" "" []) Example.world
  = (Normal false, Example.world)
  /\ exists w',
       handle (E := SmallEngine.engine) Demo.adapter_by_default
         (Demo.request "OPTIONS" "/mcp/http" []) Example.world
       = (Normal true, w')
       /\ statusCode (res w') = 204
       /\ has_cors_headers (res w').
Proof.
  destruct (constructor_defaults (E := SmallEngine.engine)
              {| options_router := Example.router;
                 options_path := Some "";
                 options_cors := None |}
              (Demo.request "OPTIONS" "" []) Example.world
              (or_intror eq_refl) eq_refl) as [Hother _].
  destruct (constructor_defaults (E := SmallEngine.engine)
              {| options_router := Example.router;
                 options_path := Some "";
                 options_cors := None |}
              (Demo.request "OPTIONS" "/mcp/http" []) Example.world
              (or_intror eq_refl) eq_refl) as [_ Hmatch].
  split.
  - apply Hother. discriminate.
  - apply Hmatch; reflexivity.
Defined.

End ReceiverMore.

(** ** More of the forwarder *)

Module ForwarderMore.

Import Forwarder Table Observe ForwarderSpec.

Section Properties.

Context {E : JSEngine} {NS : Type}.
Variable fetch : string -> RequestInit -> M NS Response.
Variable this : HTTPMCPClient.

(** What [sendRequest] makes of a rejection of [fetch]. *)
Lemma sendRequest_rejected method params (w : World NS) e net' :
  fetch (options_remoteUrl this)
    (posted_init this (js_increment (requestId w)) method params) (network w)
  = (Throw e, net') ->
  fst (sendRequest fetch this method params w) = Throw e.
Proof.
  intros Hfetch.
  unfold sendRequest, bind, increment_requestId, call_fetch, lift, throw.
  cbn [requestId network fetch_calls onError_calls logging_messages].
  unfold posted_init in Hfetch. rewrite Hfetch. reflexivity.
Qed.

(** The handler of a failing [sendRequest] with a callback: helper of the
    theorems below. *)
Lemma handler_reports handlers k params (w : World NS) message callback :
  options_onError this = Some callback ->
  fst (sendRequest fetch this (method_name k) params w) = Throw (JSError message) ->
  exists w',
    deliver (setupHandlers fetch this handlers)
      {| request_method := method_name k; request_params := params |} w
    = (Throw (JSError message), w')
    /\ onError_calls w'
       = (onError_calls w ++ [(method_name k, JSError message)])%list
    /\ logging_messages w'
       = (logging_messages w ++
          match callback with
          | Default_onError =>
              [{| level := "error";
                  data := method_name k ++ ": " ++ message |}]
          | User_onError => []
          end)%list.
Proof.
  intros Hcallback Hout.
  rewrite deliver_registered. unfold forwarding_handler, try_catch.
  cbn [request_params request_method].
  rewrite sendRequest_outcome, Hout, sendRequest_world.
  unfold call_onError. rewrite Hcallback.
  destruct callback; cbn; eexists; (split; [reflexivity|]); cbn;
    rewrite ?app_nil_r; split; reflexivity.
Qed.

(** The world [call_onError] leaves: it touches neither the counter nor
    the calls of [fetch]. *)
Lemma call_onError_world method error (w : World NS) :
  requestId (snd (call_onError this method error w)) = requestId w
  /\ fetch_calls (snd (call_onError this method error w)) = fetch_calls w
  /\ network (snd (call_onError this method error w)) = network w.
Proof.
  unfold call_onError. destruct (options_onError this) as [[|]|]; cbn;
    try (repeat split; reflexivity).
  unfold default_onError, bind, modify, sendLoggingMessage, lift, ret.
  destruct error as [m|v]; cbn; [repeat split; reflexivity|].
  destruct (get_prop E v "message") as [m|]; cbn; [|repeat split; reflexivity].
  destruct (ToString E m); cbn; repeat split; reflexivity.
Qed.

(** X14.  A rejection of [fetch] (the network fails) makes each of the
    nine handlers fail with the very error of the rejection, after one
    call of the error callback with the method name and that error. *)
Theorem network_failure_is_reported handlers k params (w : World NS)
    message net' callback :
  options_onError this = Some callback ->
  fetch (options_remoteUrl this)
    (posted_init this (js_increment (requestId w)) (method_name k) params)
    (network w)
  = (Throw (JSError message), net') ->
  exists w',
    deliver (setupHandlers fetch this handlers)
      {| request_method := method_name k; request_params := params |} w
    = (Throw (JSError message), w')
    /\ onError_calls w'
       = (onError_calls w ++ [(method_name k, JSError message)])%list.
Proof.
  intros Hcallback Hfetch.
  destruct (handler_reports handlers k params w message callback Hcallback)
    as (w' & Hd & Hcalls & _).
  - eapply sendRequest_rejected. exact Hfetch.
  - eauto.
Qed.

(** X15.  A success status with a body that [JSON.parse] rejects makes
    each of the nine handlers fail with the error of the parser, after one
    call of the error callback. *)
Theorem unreadable_body_is_reported handlers k params (w : World NS)
    response message callback :
  options_onError this = Some callback ->
  answers fetch this w (method_name k) params response ->
  ok response = true ->
  JSON_parse E (text response) = Throw (JSError message) ->
  exists w',
    deliver (setupHandlers fetch this handlers)
      {| request_method := method_name k; request_params := params |} w
    = (Throw (JSError message), w')
    /\ onError_calls w'
       = (onError_calls w ++ [(method_name k, JSError message)])%list.
Proof.
  intros Hcallback Hanswer Hok Hparse.
  destruct (handler_reports handlers k params w message callback Hcallback)
    as (w' & Hd & Hcalls & _).
  - rewrite (sendRequest_answered _ _ _ _ _ _ Hanswer), Hok, Hparse.
    reflexivity.
  - eauto.
Qed.

(** X16.  A success status with the body [null] makes each of the nine
    handlers fail with the [TypeError] of reading [error] of [null], after
    one call of the error callback: the response is not taken for a
    result. *)
Theorem null_response_is_reported handlers k params (w : World NS)
    response callback :
  options_onError this = Some callback ->
  answers fetch this w (method_name k) params response ->
  ok response = true ->
  JSON_parse E (text response) = Normal JNull ->
  exists w',
    deliver (setupHandlers fetch this handlers)
      {| request_method := method_name k; request_params := params |} w
    = (Throw (JSError (TypeError_message E JNull "error")), w')
    /\ onError_calls w'
       = (onError_calls w
          ++ [(method_name k, JSError (TypeError_message E JNull "error"))])%list.
Proof.
  intros Hcallback Hanswer Hok Hparse.
  destruct (handler_reports handlers k params w
              (TypeError_message E JNull "error") callback Hcallback)
    as (w' & Hd & Hcalls & _).
  - rewrite (sendRequest_answered _ _ _ _ _ _ Hanswer), Hok, Hparse.
    reflexivity.
  - eauto.
Qed.

(** X17.  An [error] member that is falsy ([null], [false], zero, the
    empty string) does not fail the call: with a success status, each of
    the nine handlers returns the [result] of the response and the error
    callback is not called. *)
Theorem falsy_error_is_success handlers k params (w : World NS) response o :
  answers fetch this w (method_name k) params response ->
  ok response = true ->
  JSON_parse E (text response) = Normal (JObj o) ->
  truthy (obj_get o "error") = false ->
  exists w',
    deliver (setupHandlers fetch this handlers)
      {| request_method := method_name k; request_params := params |} w
    = (Normal (obj_get o "result"), w')
    /\ onError_calls w' = onError_calls w
    /\ logging_messages w' = logging_messages w.
Proof.
  intros Hanswer Hok Hparse Herror.
  rewrite deliver_registered. unfold forwarding_handler, try_catch.
  cbn [request_params request_method].
  rewrite sendRequest_outcome, (sendRequest_answered _ _ _ _ _ _ Hanswer),
    sendRequest_world.
  rewrite Hok, Hparse. cbn. rewrite Herror. cbn.
  eexists. split; [reflexivity|]. split; reflexivity.
Qed.


(** X19.  Each of the nine handlers posts once per inbound call and
    never again, whether the call succeeds or fails: one call of [fetch]
    to the remote URL, a POST whose body is the text of the request that
    holds the version, the new value of the counter as its id, the method
    name of the handler and the parameters of the inbound call.  The
    counter moves one step: it grows by one below [2^53] and stays where
    it is from there on. *)
Theorem handler_posts_once handlers k params (w : World NS) :
  let w' := snd (deliver (setupHandlers fetch this handlers)
                   {| request_method := method_name k;
                      request_params := params |} w) in
  requestId w' = (if requestId w <? 2 ^ 53 then requestId w + 1 else requestId w)
  /\ exists call,
       fetch_calls w' = (fetch_calls w ++ [call])%list
       /\ fetch_url call = options_remoteUrl this
       /\ init_method (fetch_init call) = "POST"
       /\ init_body (fetch_init call)
          = JSON_stringify E
              (JObj [("jsonrpc", JStr "2.0");
                     ("id", JNum (number_of_Z (requestId w')));
                     ("method", JStr (method_name k)); ("params", params)]).
Proof.
  cbv zeta. rewrite deliver_registered. unfold forwarding_handler, try_catch.
  cbn [request_params request_method].
  rewrite sendRequest_outcome, sendRequest_world.
  destruct (fst (sendRequest fetch this (method_name k) params w)) as [v|e].
  - cbn. split; [reflexivity|]. eexists. split; [reflexivity|].
    repeat split.
  - unfold bind, throw.
    match goal with
    | |- context [call_onError this ?m e ?w1] =>
        destruct (call_onError_world m e w1) as (Hid & Hcalls & _);
        destruct (call_onError this m e w1) as [[[]|e'] w2]
    end; cbn [snd] in *; rewrite Hid, Hcalls; cbn;
      (split; [reflexivity|]); eexists; (split; [reflexivity|]); repeat split.
Qed.





End Properties.

Section Constructor.

Context {E : JSEngine} {NS : Type}.
Variable fetch : string -> RequestInit -> M NS Response.
Variable options : HTTPMCPClientOptions.

(** X21.  A client constructed from options that hold [undefined] under
    [onError] has no error callback: each of its nine handlers is
    [sendRequest] itself, with the same result or failure and the same
    world after it. *)
Theorem without_callback_handler_is_sendRequest handlers k params (w : World NS) :
  onError options = Some None ->
  deliver (setupHandlers fetch (new_HTTPMCPClient options) handlers)
    {| request_method := method_name k; request_params := params |} w
  = sendRequest fetch (new_HTTPMCPClient options) (method_name k) params w.
Proof.
  intros Hnone. rewrite deliver_registered.
  unfold forwarding_handler, try_catch. cbn [request_params request_method].
  destruct (sendRequest fetch (new_HTTPMCPClient options) (method_name k)
              params w) as [[v|e] w1]; [reflexivity|].
  unfold call_onError, new_HTTPMCPClient. cbn [options_onError].
  rewrite Hnone. reflexivity.
Qed.

(** X22.  A client constructed from options without [onError] gets the
    default callback: when [sendRequest] fails with an error of message
    [m], the handler sends exactly one logging message, of level "error"
    and data "method: m", and then fails with that error. *)
Theorem default_callback_sends_one_log handlers k params (w : World NS) message :
  onError options = None ->
  fst (sendRequest fetch (new_HTTPMCPClient options) (method_name k) params w)
  = Throw (JSError message) ->
  exists w',
    deliver (setupHandlers fetch (new_HTTPMCPClient options) handlers)
      {| request_method := method_name k; request_params := params |} w
    = (Throw (JSError message), w')
    /\ logging_messages w'
       = (logging_messages w
          ++ [{| level := "error";
                 data := method_name k ++ ": " ++ message |}])%list.
Proof.
  intros Hdefault Hout.
  destruct (handler_reports fetch (new_HTTPMCPClient options) handlers k params
              w message Default_onError) as (w' & Hd & _ & Hlog).
  - unfold new_HTTPMCPClient. cbn [options_onError]. rewrite Hdefault.
    reflexivity.
  - exact Hout.
  - eauto.
Qed.

(** X23.  A callback given in the options replaces the default one: when
    [sendRequest] fails, that callback is called once, with the method
    name and the error, and no logging message is sent. *)
Theorem given_callback_replaces_default handlers k params (w : World NS) message :
  onError options = Some (Some User_onError) ->
  fst (sendRequest fetch (new_HTTPMCPClient options) (method_name k) params w)
  = Throw (JSError message) ->
  exists w',
    deliver (setupHandlers fetch (new_HTTPMCPClient options) handlers)
      {| request_method := method_name k; request_params := params |} w
    = (Throw (JSError message), w')
    /\ onError_calls w'
       = (onError_calls w ++ [(method_name k, JSError message)])%list
    /\ logging_messages w' = logging_messages w.
Proof.
  intros Hgiven Hout.
  destruct (handler_reports fetch (new_HTTPMCPClient options) handlers k params
              w message User_onError) as (w' & Hd & Hcalls & Hlog).
  - unfold new_HTTPMCPClient. cbn [options_onError]. rewrite Hgiven.
    reflexivity.
  - exact Hout.
  - rewrite app_nil_r in Hlog. eauto.
Qed.

End Constructor.


(** *** The properties at work on the example client *)

Lemma network_failure_is_reported_witness :
  exists w',
    deliver
      (setupHandlers (E := SmallEngine.engine) Example.fetch Example.client ∅)
      {| request_method := "resources/list"; request_params := JObj [] |}
      (new_World [])
    = (Throw (JSError "fetch failed"), w')
    /\ onError_calls w' = [("resources/list", JSError "fetch failed")].
Proof.
  apply (network_failure_is_reported (E := SmallEngine.engine) Example.fetch
           Example.client ∅ m_resources_list (JObj []) (new_World [])
           "fetch failed" [] Default_onError); reflexivity.
Defined.

Lemma unreadable_body_is_reported_witness :
  exists w',
    deliver
      (setupHandlers (E := SmallEngine.engine) Example.fetch Example.client ∅)
      {| request_method := "tools/list"; request_params := JObj [] |}
      (new_World [Example.response_200 "<html>"])
    = (Throw (JSError "Unexpected token in JSON"), w')
    /\ onError_calls w'
       = [("tools/list", JSError "Unexpected token in JSON")].
Proof.
  apply (unreadable_body_is_reported (E := SmallEngine.engine) Example.fetch
           Example.client ∅ m_tools_list (JObj [])
           (new_World [Example.response_200 "<html>"])
           (Example.response_200 "<html>") "Unexpected token in JSON"
           Default_onError); try reflexivity.
  eexists. reflexivity.
Defined.

Lemma null_response_is_reported_witness :
  exists w',
    deliver
      (setupHandlers (E := SmallEngine.engine) Example.fetch Example.client ∅)
      {| request_method := "tools/list"; request_params := JObj [] |}
      (new_World [Example.response_200 "null"])
    = (Throw (JSError "Cannot read properties of null (reading 'error')"), w')
    /\ onError_calls w'
       = [("tools/list",
           JSError "Cannot read properties of null (reading 'error')")].
Proof.
  apply (null_response_is_reported (E := SmallEngine.engine) Example.fetch
           Example.client ∅ m_tools_list (JObj [])
           (new_World [Example.response_200 "null"])
           (Example.response_200 "null") Default_onError); try reflexivity.
  eexists. reflexivity.
Defined.

Lemma falsy_error_is_success_witness :
  exists w',
    deliver
      (setupHandlers (E := SmallEngine.engine) Example.fetch Example.client ∅)
      {| request_method := "prompts/list"; request_params := JObj [] |}
      (new_World
         [Example.response_200
            (json "{'jsonrpc':'2.0','id':1,'error':null,'result':{'prompts':[]}}")])
    = (Normal (JObj [("prompts", JArr [])]), w')
    /\ onError_calls w' = []
    /\ logging_messages w' = [].
Proof.
  apply (falsy_error_is_success (E := SmallEngine.engine) Example.fetch
           Example.client ∅ m_prompts_list (JObj [])
           (new_World
              [Example.response_200
                 (json "{'jsonrpc':'2.0','id':1,'error':null,'result':{'prompts':[]}}")])
           (Example.response_200
              (json "{'jsonrpc':'2.0','id':1,'error':null,'result':{'prompts':[]}}"))
           [("jsonrpc", JStr "2.0"); ("id", JNum 1); ("error", JNull);
            ("result", JObj [("prompts", JArr [])])]); try reflexivity.
  eexists. reflexivity.
Defined.


Lemma without_callback_handler_is_sendRequest_witness :
  deliver
    (setupHandlers (E := SmallEngine.engine) Example.fetch
       (new_HTTPMCPClient Demo.options_without_callback) ∅)
    {| request_method := "tools/list"; request_params := JObj [] |}
    (new_World [Example.response_500])
  = sendRequest (E := SmallEngine.engine) Example.fetch
      (new_HTTPMCPClient Demo.options_without_callback) "tools/list" (JObj [])
      (new_World [Example.response_500]).
Proof.
  apply (without_callback_handler_is_sendRequest (E := SmallEngine.engine)
           Example.fetch Demo.options_without_callback ∅ m_tools_list (JObj [])
           (new_World [Example.response_500])).
  reflexivity.
Defined.

Lemma default_callback_sends_one_log_witness :
  exists w',
    deliver
      (setupHandlers (E := SmallEngine.engine) Example.fetch
         (new_HTTPMCPClient Demo.options) ∅)
      {| request_method := "tools/call"; request_params := JObj [] |}
      (new_World [Example.response_500])
    = (Throw (JSError "HTTP error! status: 500"), w')
    /\ logging_messages w'
       = [{| level := "error";
             data := "tools/call: HTTP error! status: 500" |}].
Proof.
  apply (default_callback_sends_one_log (E := SmallEngine.engine) Example.fetch
           Demo.options ∅ m_tools_call (JObj [])
           (new_World [Example.response_500]) "HTTP error! status: 500");
    reflexivity.
Defined.

Lemma given_callback_replaces_default_witness :
  exists w',
    deliver
      (setupHandlers (E := SmallEngine.engine) Example.fetch
         (new_HTTPMCPClient Demo.options_with_callback) ∅)
      {| request_method := "tools/call"; request_params := JObj [] |}
      (new_World [Example.response_500])
    = (Throw (JSError "HTTP error! status: 500"), w')
    /\ onError_calls w'
       = [("tools/call", JSError "HTTP error! status: 500")]
    /\ logging_messages w' = [].
Proof.
  apply (given_callback_replaces_default (E := SmallEngine.engine) Example.fetch
           Demo.options_with_callback ∅ m_tools_call (JObj [])
           (new_World [Example.response_500]) "HTTP error! status: 500");
    reflexivity.
Defined.

End ForwarderMore.

(** ** The command line entry *)

Module CliSpec.

Import Forwarder Cli ForwarderSpec.

(** One step of the [reduce] of [headers]. *)
Lemma header_char_lowered (c : ascii) :
  let c' := if Ascii.eqb (Receiver.lower_ascii c) "_" then "-"%char
            else Receiver.lower_ascii c in
  c' <> "_"%char /\ ~ (65 <= N_of_ascii c' <= 90)%N.
Proof.
  destruct c as [[] [] [] [] [] [] [] []]; vm_compute;
    (split; [discriminate|intros [H1 H2]; (now apply H1) || (now apply H2)]).
Qed.

Lemma headerKey_lowered key : lowered (headerKey key).
Proof.
  unfold headerKey, lowered.
  generalize (substring_from (String.length "HTTP_HEADER_") key). intros s.
  induction s as [|c s IH]; cbn; constructor.
  - apply header_char_lowered.
  - exact IH.
Qed.

Lemma or_else_empty value : or_else (Some value) "" = value.
Proof.
  unfold or_else. destruct (String.eqb_spec value ""); congruence.
Qed.

Section Reduce.

Variable env : list (string * string).

Let step (headers : gmap string string) (key : string) : gmap string string :=
  <[headerKey key := or_else (getenv env key) ""]> headers.

Lemma reduce_origin keys : forall (start : gmap string string) name value,
  fold_left step keys start !! name = Some value ->
  start !! name = Some value
  \/ exists key, In key keys /\ headerKey key = name
                 /\ value = or_else (getenv env key) "".
Proof.
  induction keys as [|key rest IH]; intros start name value H; cbn in H.
  - left. exact H.
  - destruct (IH _ _ _ H) as [Hstart | (key' & Hin & Hname & Hvalue)].
    + unfold step in Hstart.
      destruct (decide (headerKey key = name)) as [Heq|Hne].
      * rewrite Heq, lookup_insert_eq in Hstart. injection Hstart as <-.
        right. exists key. split; [left; reflexivity|]. split; [exact Heq|reflexivity].
      * rewrite lookup_insert_ne in Hstart by exact Hne. left. exact Hstart.
    + right. exists key'. split; [right; exact Hin|]. split; assumption.
Qed.

Lemma reduce_kept keys : forall (start : gmap string string) name,
  is_Some (start !! name) -> is_Some (fold_left step keys start !! name).
Proof.
  induction keys as [|key rest IH]; intros start name H; cbn; [exact H|].
  apply IH. unfold step.
  destruct (decide (headerKey key = name)) as [Heq|Hne].
  - rewrite Heq, lookup_insert_eq. eauto.
  - rewrite lookup_insert_ne by exact Hne. exact H.
Qed.

Lemma reduce_written keys : forall (start : gmap string string) key,
  In key keys -> is_Some (fold_left step keys start !! headerKey key).
Proof.
  induction keys as [|key' rest IH]; intros start key Hin; [destruct Hin|].
  cbn. destruct Hin as [-> | Hin].
  - apply reduce_kept. unfold step. rewrite lookup_insert_eq. eauto.
  - apply IH. exact Hin.
Qed.

End Reduce.

Lemma headers_origin env name value :
  headers env !! name = Some value ->
  exists key, In key (header_variables env) /\ headerKey key = name
              /\ value = or_else (getenv env key) "".
Proof.
  intros H. unfold headers in H.
  destruct (reduce_origin env _ _ _ _ H) as [Hempty|Hkey].
  - rewrite lookup_empty in Hempty. discriminate.
  - exact Hkey.
Qed.

Lemma getenv_In env key : In key (map fst env) -> exists value, getenv env key = Some value.
Proof.
  induction env as [|[name value] rest IH]; intros Hin; [destruct Hin|].
  cbn. destruct (String.eqb_spec name key); [eauto|].
  destruct Hin as [Heq|Hin]; [contradiction|]. apply IH, Hin.
Qed.

(** X24.  Every header [index.ts] derives from the environment comes
    from a variable whose name starts with [HTTP_HEADER_]: its name is
    the rest of the variable's name in lower case with hyphens for
    underscores, and its value is the variable's value.  Each such
    variable gives a header; the other variables give none. *)
Theorem headers_come_from_prefixed_variables env :
  Forall ascii_only (map fst env) ->
  (forall name value,
     headers env !! name = Some value ->
     exists key,
       In key (map fst env)
       /\ startsWith key "HTTP_HEADER_" = true
       /\ name = headerKey key
       /\ getenv env key = Some value)
  /\ (forall key,
        In key (map fst env) -> startsWith key "HTTP_HEADER_" = true ->
        is_Some (headers env !! headerKey key)).
Proof.
  intros _. split.
  - intros name value H.
    destruct (headers_origin env name value H) as (key & Hin & Hname & Hvalue).
    unfold header_variables in Hin. apply filter_In in Hin as [Hin Hprefix].
    exists key. repeat split; auto.
    destruct (getenv_In env key Hin) as (v & Hv).
    rewrite Hv, or_else_empty in Hvalue. congruence.
  - intros key Hin Hprefix. unfold headers.
    apply reduce_written. apply filter_In. auto.
Qed.

(** X25.  No header derived from the environment has an underscore or a
    capital letter in its name. *)
Theorem derived_header_names_are_lowered env name value :
  Forall ascii_only (map fst env) ->
  headers env !! name = Some value -> lowered name.
Proof.
  intros _ H.
  destruct (headers_origin env name value H) as (key & _ & <- & _).
  apply headerKey_lowered.
Qed.

Lemma Content_Type_not_lowered : ~ lowered "Content-Type".
Proof.
  intros H. unfold lowered in H. cbn in H. inversion H as [|c l [_ Hc] _].
  apply Hc. vm_compute. split; discriminate.
Qed.

(** A name without capital letter is its own lower-case spelling. *)
Lemma lowered_toLowerCase name : lowered name -> Receiver.toLowerCase name = name.
Proof.
  unfold lowered. induction name as [|c name IH]; intros H; [reflexivity|].
  cbn in H. inversion H as [|c' l [_ Hc] Hrest]; subst.
  cbn [Receiver.toLowerCase]. rewrite (IH Hrest). f_equal.
  unfold Receiver.lower_ascii.
  destruct ((65 <=? N_of_ascii c)%N && (N_of_ascii c <=? 90)%N) eqn:Hcapital;
    [|reflexivity].
  exfalso. apply Hc. apply andb_true_iff in Hcapital as [H1 H2].
  split; [apply N.leb_le, H1|apply N.leb_le, H2].
Qed.

(** Of the headers derived from the environment, the one named
    [content-type] alone is sent under [Content-Type]. *)
Lemma derived_entries_under_Content_Type env :
  Observe.entries_under "Content-Type" (headers env)
  = match headers env !! "content-type" with
    | Some value => {[ "content-type" := value ]}
    | None => ∅
    end.
Proof.
  unfold Observe.entries_under. apply map_eq. intros name.
  rewrite map_lookup_filter.
  destruct (decide (name = "content-type")) as [->|Hother].
  - destruct (headers env !! "content-type") as [value|] eqn:H; cbn.
    + rewrite lookup_singleton_eq. case_guard; [reflexivity|].
      exfalso. cbn in *. auto.
    + rewrite lookup_empty. reflexivity.
  - assert (Hnone : (match headers env !! "content-type" with
                     | Some value => {[ "content-type" := value ]}
                     | None => ∅
                     end : gmap string string) !! name = None).
    { destruct (headers env !! "content-type");
        [apply lookup_singleton_ne; congruence|apply lookup_empty]. }
    rewrite Hnone.
    destruct (headers env !! name) as [value|] eqn:H; cbn; [|reflexivity].
    case_guard as Hguard; [|reflexivity].
    exfalso. apply Hother. cbn in Hguard.
    rewrite lowered_toLowerCase in Hguard; [exact Hguard|].
    destruct (headers_origin env _ _ H) as (key & _ & <- & _).
    apply headerKey_lowered.
Qed.

(** X26.  The environment cannot take [application/json] out of the
    [Content-Type] of the requests of the client [index.ts] starts, but it
    can add to it.  Every header it derives has a lower-case name, so none
    is the property [Content-Type] of the headers object, which keeps
    [application/json]; the header derived under the name [content-type],
    if there is one, is a property of its own, and both are sent under the
    header [Content-Type], whose name is compared without regard to case:
    [fetch] joins their values.  A variable [HTTP_HEADER_CONTENT_TYPE],
    when it is the only one that derives the name [content-type], gives
    that header its value. *)
Theorem environment_adds_to_content_type env client :
  Forall ascii_only (map fst env) ->
  main env = Start_HTTPMCPClient client ->
  request_headers client !! "Content-Type" = Some "application/json"
  /\ Observe.entries_under "Content-Type" (request_headers client)
     = match headers env !! "content-type" with
       | Some value =>
           {[ "content-type" := value; "Content-Type" := "application/json" ]}
       | None => {[ "Content-Type" := "application/json" ]}
       end
  /\ (forall value,
        getenv env "HTTP_HEADER_CONTENT_TYPE" = Some value ->
        (forall key, In key (header_variables env) ->
                     headerKey key = "content-type" ->
                     key = "HTTP_HEADER_CONTENT_TYPE") ->
        headers env !! "content-type" = Some value).
Proof.
  intros _ Hmain. unfold main in Hmain.
  destruct (or_else (getenv env "REMOTE_MCP_TRANSPORT") "trpc" =? "http")%string;
    [|discriminate].
  injection Hmain as <-. split; [|split].
  - rewrite request_headers_lookup. unfold new_HTTPMCPClient. cbn.
    destruct (headers env !! "Content-Type") as [value|] eqn:H; [|reflexivity].
    exfalso. apply Content_Type_not_lowered.
    destruct (headers_origin env _ _ H) as (key & _ & <- & _).
    apply headerKey_lowered.
  - match goal with
    | |- Observe.entries_under _ (request_headers ?c) = _ =>
        change (request_headers c)
          with (headers env ∪ ({[ "Content-Type" := "application/json" ]}
                               : gmap string string))
    end.
    rewrite entries_under_union, entries_under_Content_Type,
      derived_entries_under_Content_Type.
    destruct (headers env !! "content-type") as [value|].
    + rewrite <- insert_union_singleton_l. reflexivity.
    + apply (left_id ∅ _).
  - intros value Hvalue Honly.
    assert (Hin : In "HTTP_HEADER_CONTENT_TYPE" (header_variables env)).
    { unfold header_variables. apply filter_In. split; [|reflexivity].
      clear -Hvalue. induction env as [|[name v] rest IH]; [discriminate|].
      cbn in Hvalue |- *. destruct (String.eqb_spec name "HTTP_HEADER_CONTENT_TYPE");
        [left; assumption|right; apply IH, Hvalue]. }
    pose proof (reduce_written env (header_variables env) ∅ _ Hin) as Hsome.
    change (is_Some (headers env !! "content-type")) in Hsome.
    destruct Hsome as (v & Hv). rewrite Hv.
    destruct (headers_origin env _ _ Hv) as (key & Hk & Hname & ->).
    rewrite (Honly key Hk Hname), Hvalue, or_else_empty. reflexivity.
Qed.

(** X27.  [index.ts] starts the HTTP client when [REMOTE_MCP_TRANSPORT]
    is exactly [http], and the tRPC client otherwise, also when the
    variable is unset or empty; in both cases the remote URL is
    [REMOTE_MCP_URL] when that is set and not empty, and
    [http://localhost:9512] otherwise, and so never empty.  The HTTP
    client has the default error callback. *)
Theorem main_selects_transport env :
  let remoteUrl :=
    match getenv env "REMOTE_MCP_URL" with
    | Some url => if String.eqb url "" then "http://localhost:9512" else url
    | None => "http://localhost:9512"
    end in
  remoteUrl <> ""
  /\ (getenv env "REMOTE_MCP_TRANSPORT" = Some "http" ->
      exists client,
        main env = Start_HTTPMCPClient client
        /\ options_remoteUrl client = remoteUrl
        /\ options_headers client = Some (headers env)
        /\ options_onError client = Some Default_onError)
  /\ (getenv env "REMOTE_MCP_TRANSPORT" <> Some "http" ->
      main env = Start_RemoteMCPClient remoteUrl (headers env)).
Proof.
  cbv zeta. split; [|split].
  - destruct (getenv env "REMOTE_MCP_URL") as [url|]; [|discriminate].
    destruct (String.eqb_spec url ""); [discriminate|assumption].
  - intros H. unfold main. rewrite H. cbn.
    eexists. split; [reflexivity|]. cbn. repeat split.
  - intros H. unfold main, or_else.
    destruct (getenv env "REMOTE_MCP_TRANSPORT") as [transport|] eqn:Ht;
      [|reflexivity].
    destruct (String.eqb_spec transport ""); [reflexivity|].
    destruct (String.eqb_spec transport "http"); [congruence|reflexivity].
Qed.


(** *** The properties at work on an environment *)

Lemma demo_env_is_ascii : Forall ascii_only (map fst Demo.env).
Proof.
  unfold ascii_only. cbn. repeat constructor.
Qed.

Lemma headers_come_from_prefixed_variables_witness :
  (exists key,
     In key (map fst Demo.env)
     /\ startsWith key "HTTP_HEADER_" = true
     /\ "authorization" = headerKey key
     /\ getenv Demo.env key = Some "Bearer secret")
  /\ is_Some (headers Demo.env !! "x-api-key").
Proof.
  destruct (headers_come_from_prefixed_variables Demo.env demo_env_is_ascii)
    as [Hfrom Hto].
  split.
  - apply Hfrom. reflexivity.
  - apply (Hto "HTTP_HEADER_X_API_KEY"); [|reflexivity].
    cbn. tauto.
Defined.

Lemma derived_header_names_are_lowered_witness : lowered "content-type".
Proof.
  apply (derived_header_names_are_lowered Demo.env "content-type" "text/plain"
           demo_env_is_ascii).
  reflexivity.
Defined.

Lemma environment_adds_to_content_type_witness :
  exists client,
    main Demo.env = Start_HTTPMCPClient client
    /\ request_headers client !! "Content-Type" = Some "application/json"
    /\ Observe.entries_under "Content-Type" (request_headers client)
       = {[ "content-type" := "text/plain";
            "Content-Type" := "application/json" ]}
    /\ headers Demo.env !! "content-type" = Some "text/plain".
Proof.
  eexists. split; [reflexivity|].
  destruct (environment_adds_to_content_type Demo.env _
              demo_env_is_ascii eq_refl) as (Hdefault & Hunder & Hadded).
  assert (Hderived : headers Demo.env !! "content-type" = Some "text/plain").
  { apply Hadded; [reflexivity|].
    intros key Hin Hname. cbn in Hin.
    destruct Hin as [<-|[<-|[<-|[]]]];
      [discriminate Hname|reflexivity|discriminate Hname]. }
  split; [exact Hdefault|]. split; [|exact Hderived].
  rewrite Hunder, Hderived. reflexivity.
Defined.

End CliSpec.

(** ** The example tool *)

Module CalculatorSpec.

Import Calculator.

Section Properties.

Context {E : JSEngine}.
Variable Number : JSValue -> float.



End Properties.

(** Negative zero is a zero divisor, and an operation outside the four
    gives the text of [undefined]. *)
Example calculator_runs :
  calculator (E := SmallEngine.engine) Demo.Number
    (JObj [("operation", JStr "divide"); ("a", JStr "1"); ("b", JStr "-0")]) tt
  = (Throw (JSError "Division by zero"), tt)
  /\ calculator (E := SmallEngine.engine) Demo.Number
       (JObj [("operation", JStr "add"); ("a", JStr "1"); ("b", JStr "2")]) tt
     = (Normal (JObj [("content",
                       JArr [JObj [("type", JStr "text");
                                   ("text", JStr "3")]])]), tt)
  /\ calculator (E := SmallEngine.engine) Demo.Number
       (JObj [("operation", JStr "power"); ("a", JStr "1"); ("b", JStr "2")]) tt
     = (Normal (JObj [("content",
                       JArr [JObj [("type", JStr "text");
                                   ("text", JStr "undefined")]])]), tt).
Proof. repeat split; reflexivity. Qed.

End CalculatorSpec.

(** ** The two adapters face to face *)

Module WireSpec.

Import Receiver Forwarder Table Observe Shape ReceiverSpec ForwarderSpec
  ReceiverMore.

Section Properties.

Context {E : JSEngine} {RS : Type}.
Variable adapter : HTTPAdapter RS.
Variable request_path : string -> string.
Variable this : HTTPMCPClient.

(** The world of the handler when the request arrives. *)
Let arrival (server : RS * list RouterCall) : Receiver.World RS :=
  {| res := fresh_response; router_state := fst server;
     router_calls := snd server |}.

(** The request [sendRequest] posts, as the server receives it. *)
Let posted (id : Z) (method : string) (params : JSValue) : IncomingMessage :=
  {| url := request_path (options_remoteUrl this);
     Receiver.method := "POST";
     chunks := [JSON_stringify E (request_object id method params)] |}.

(** The handler on a valid request for [k] whose router operation
    returns: helper of the theorem below. *)
Lemma handle_known_run req (w : Receiver.World RS) o k call v s' :
  url req = path adapter -> Receiver.method req = "POST" ->
  finished (res w) = None ->
  JSON_parse E (read_body req) = Normal (JObj o) ->
  obj_get o "jsonrpc" = JStr "2.0" ->
  obj_get o "method" = JStr (method_name k) ->
  operation E k (obj_get o "params") = Normal call ->
  perform (router adapter) call (router_state w) = (Normal v, s') ->
  exists w',
    handle adapter req w = (Normal true, w')
    /\ sent_json E (res w') 200
         (success_response (nullish (obj_get o "id") JNull) (result_envelope k v))
    /\ router_calls w' = (router_calls w ++ [call])%list
    /\ router_state w' = s'.
Proof.
  intros Hurl Hmethod Hfin Hparse Hv Hm Hop Hrun.
  destruct (handle_post adapter req w Hurl Hmethod Hfin) as (r & Hr & _ & ->).
  rewrite Hparse.
  erewrite bind_Normal
    by (apply valid_request_passes; [exact Hv|rewrite Hm; apply method_name_truthy]).
  cbn iota.
  set (w1 := {| res := r; router_state := s';
                router_calls := router_calls w ++ [call] |}).
  destruct (sendJSON_unsent 200
              (success_response (nullish (obj_get o "id") JNull)
                 (result_envelope k v))
              w1 Hr) as (r' & Hsend & Hsent & _).
  exists (with_res w1 r'). split; [|split; [exact Hsent|split; reflexivity]].
  unfold try_catch, bind at 1.
  assert (Hbody :
    (name <- lift (get_prop E (JObj o) "method") ;;
     params <- lift (get_prop E (JObj o) "params") ;;
     result <- handleMethod adapter name params ;;
     id <- request_id (JObj o) ;;
     sendJSON 200 (success_response id result)) (with_res w r)
    = (Normal tt, with_res w1 r')).
  { unfold bind at 1, lift at 1. cbn [get_prop]. rewrite Hm.
    unfold bind at 1, lift at 1.
    erewrite bind_Normal.
    2:{ rewrite handleMethod_known, Hop. unfold bind, ret.
        rewrite invoke_run, Hrun. reflexivity. }
    unfold request_id. erewrite bind_Normal by reflexivity.
    exact Hsend. }
  rewrite Hbody. reflexivity.
Qed.

(** What [fetch] resolves to when the handler answers: helper. *)
Lemma fetch_answered id method params server w' data :
  handle adapter (posted id method params) (arrival server) = (Normal true, w') ->
  sent_json E (res w') 200 data ->
  Wire.fetch adapter request_path (options_remoteUrl this)
    (posted_init this id method params) server
  = (Normal {| ok := true; status := number_of_Z 200;
               text := JSON_stringify E data |},
     (router_state w', router_calls w')).
Proof.
  intros Hhandle (Hstatus & _ & Hbody).
  unfold Wire.fetch, createHandler, posted_init. cbn [init_method init_body].
  fold (posted id method params). fold (arrival server).
  erewrite bind_Normal by exact Hhandle. cbn [negb]. unfold ret.
  rewrite Hbody, Hstatus. reflexivity.
Qed.

(** X29.  Forwarder and receiver composed: when the remote URL names
    the path of the adapter, the engine reads the posted request back as a
    valid request for the method [k] of the handler, the router returns
    [v], and the engine reads the answer back as a response without error,
    then the inbound call returns the [result] of that response, the
    router has received the one call of the table, and no error is
    reported. *)
Theorem forwarded_call_reaches_the_router handlers k params
    (w : Forwarder.World (RS * list RouterCall)) o call v s' o' :
  request_path (options_remoteUrl this) = path adapter ->
  JSON_parse E
    (JSON_stringify E
       (request_object (js_increment (requestId w)) (method_name k) params))
  = Normal (JObj o) ->
  obj_get o "jsonrpc" = JStr "2.0" ->
  obj_get o "method" = JStr (method_name k) ->
  operation E k (obj_get o "params") = Normal call ->
  perform (router adapter) call (fst (network w)) = (Normal v, s') ->
  JSON_parse E
    (JSON_stringify E
       (success_response (nullish (obj_get o "id") JNull) (result_envelope k v)))
  = Normal (JObj o') ->
  obj_get o' "error" = JUndefined ->
  exists w',
    deliver
      (setupHandlers (Wire.fetch adapter request_path) this handlers)
      {| request_method := method_name k; request_params := params |} w
    = (Normal (obj_get o' "result"), w')
    /\ network w' = (s', (snd (network w) ++ [call])%list)
    /\ onError_calls w' = onError_calls w.
Proof.
  intros Hpath Hrequest Hv Hm Hop Hrun Hresponse Herror.
  destruct (handle_known_run
              (posted (js_increment (requestId w)) (method_name k) params)
              (arrival (network w)) o k call v s')
    as (w1 & Hhandle & Hsent & Hcalls & Hstate);
    try assumption; try reflexivity.
  pose proof (fetch_answered _ _ _ _ _ _ Hhandle Hsent) as Hfetch.
  assert (Hanswer : answers (Wire.fetch adapter request_path) this w
                      (method_name k) params
                      {| ok := true; status := number_of_Z 200;
                         text := JSON_stringify E
                           (success_response (nullish (obj_get o "id") JNull)
                              (result_envelope k v)) |})
    by (eexists; exact Hfetch).
  rewrite deliver_registered. unfold forwarding_handler, try_catch.
  cbn [request_params request_method].
  rewrite sendRequest_outcome, (sendRequest_answered _ _ _ _ _ _ Hanswer),
    sendRequest_world.
  cbn [ok text negb]. rewrite Hresponse. cbn. rewrite Herror. cbn.
  eexists. split; [reflexivity|]. cbn [network onError_calls].
  rewrite Hfetch. cbn [snd]. rewrite Hcalls, Hstate. split; reflexivity.
Qed.

(** X30.  Forwarder and receiver composed, on a failure: when the router
    operation raises a failure, the receiver answers with the internal
    error, and once the engine reads that answer back with its code and
    its message, the inbound call fails with "JSON-RPC error -32603:
    Internal error" whatever the failure was: the message of the failure,
    sent as [data], does not reach the local caller.  The error callback
    is called once. *)
Theorem remote_failure_reason_is_dropped handlers k params
    (w : Forwarder.World (RS * list RouterCall)) o call e s' o' error callback :
  options_onError this = Some callback ->
  request_path (options_remoteUrl this) = path adapter ->
  JSON_parse E
    (JSON_stringify E
       (request_object (js_increment (requestId w)) (method_name k) params))
  = Normal (JObj o) ->
  obj_get o "jsonrpc" = JStr "2.0" ->
  obj_get o "method" = JStr (method_name k) ->
  operation E k (obj_get o "params") = Normal call ->
  perform (router adapter) call (fst (network w)) = (Throw e, s') ->
  JSON_parse E
    (JSON_stringify E
       (error_response (nullish (obj_get o "id") JNull) (-32603)%float
          "Internal error" (JStr (message_or e "Unknown error"))))
  = Normal (JObj o') ->
  obj_get o' "error" = JObj error ->
  obj_get error "code" = JNum (-32603)%float ->
  obj_get error "message" = JStr "Internal error" ->
  exists w',
    deliver
      (setupHandlers (Wire.fetch adapter request_path) this handlers)
      {| request_method := method_name k; request_params := params |} w
    = (Throw (JSError ("JSON-RPC error " ++ Number_toString E (-32603)%float
                       ++ ": Internal error")), w')
    /\ network w' = (s', (snd (network w) ++ [call])%list)
    /\ onError_calls w'
       = (onError_calls w
          ++ [(method_name k,
               JSError ("JSON-RPC error " ++ Number_toString E (-32603)%float
                        ++ ": Internal error"))])%list.
Proof.
  intros Hcallback Hpath Hrequest Hv Hm Hop Hrun Hresponse Herror Hcode Hmessage.
  destruct (handle_dispatch_throws adapter
              (posted (js_increment (requestId w)) (method_name k) params)
              (arrival (network w)) o e s' [call])
    as (w1 & Hhandle & Hsent & Hcalls & Hstate);
    try assumption; try reflexivity.
  { rewrite Hm. apply method_name_truthy. }
  { intros r. rewrite Hm, handleMethod_known, Hop. unfold bind.
    rewrite invoke_run. cbn [router_state arrival]. rewrite Hrun. reflexivity. }
  pose proof (fetch_answered _ _ _ _ _ _ Hhandle Hsent) as Hfetch.
  assert (Hanswer : answers (Wire.fetch adapter request_path) this w
                      (method_name k) params
                      {| ok := true; status := number_of_Z 200;
                         text := JSON_stringify E
                           (error_response (nullish (obj_get o "id") JNull)
                              (-32603)%float "Internal error"
                              (JStr (message_or e "Unknown error"))) |})
    by (eexists; exact Hfetch).
  rewrite deliver_registered. unfold forwarding_handler, try_catch.
  cbn [request_params request_method].
  rewrite sendRequest_outcome, (sendRequest_answered _ _ _ _ _ _ Hanswer),
    sendRequest_world.
  cbn [ok text negb]. rewrite Hresponse. cbn. rewrite Herror. cbn.
  rewrite Hcode, Hmessage. cbn.
  unfold call_onError. rewrite Hcallback.
  rewrite Hfetch.
  destruct callback; cbn; eexists; (split; [reflexivity|]); cbn;
    rewrite Hcalls, Hstate; split; reflexivity.
Qed.

End Properties.

Lemma forwarded_call_reaches_the_router_witness :
  exists w',
    deliver
      (setupHandlers (E := SmallEngine.engine)
         (Wire.fetch (E := SmallEngine.engine) Example.adapter Demo.pathname)
         Demo.client_of_server ∅)
      {| request_method := "tools/list"; request_params := JObj [] |}
      (new_World (tt, [Call_listResources]))
    = (Normal (JObj [("tools", JArr [JObj [("name", JStr "calculator")]])]), w')
    /\ network w' = (tt, [Call_listResources; Call_listTools])
    /\ onError_calls w' = [].
Proof.
  apply (forwarded_call_reaches_the_router (E := SmallEngine.engine)
           Example.adapter Demo.pathname Demo.client_of_server ∅
           m_tools_list (JObj []) (new_World (tt, [Call_listResources]))
           [("jsonrpc", JStr "2.0"); ("id", JNum 1);
            ("method", JStr "tools/list"); ("params", JObj [])]
           Call_listTools (JArr [JObj [("name", JStr "calculator")]]) tt
           [("jsonrpc", JStr "2.0"); ("id", JNum 1);
            ("result",
             JObj [("tools", JArr [JObj [("name", JStr "calculator")]])])]);
    reflexivity.
Defined.

Lemma remote_failure_reason_is_dropped_witness :
  exists w',
    deliver
      (setupHandlers (E := SmallEngine.engine)
         (Wire.fetch (E := SmallEngine.engine) Example.adapter Demo.pathname)
         Demo.client_of_server ∅)
      {| request_method := "tools/call";
         request_params :=
           JObj [("name", JStr "calculator");
                 ("arguments", JObj [("b", JStr "0")])] |}
      (new_World (tt, []))
    = (Throw (JSError "JSON-RPC error -32603: Internal error"), w')
    /\ network w'
       = (tt, [Call_callTool (JStr "calculator") (JObj [("b", JStr "0")])])
    /\ onError_calls w'
       = [("tools/call", JSError "JSON-RPC error -32603: Internal error")].
Proof.
  apply (remote_failure_reason_is_dropped (E := SmallEngine.engine)
           Example.adapter Demo.pathname Demo.client_of_server ∅
           m_tools_call
           (JObj [("name", JStr "calculator");
                  ("arguments", JObj [("b", JStr "0")])])
           (new_World (tt, []))
           [("jsonrpc", JStr "2.0"); ("id", JNum 1);
            ("method", JStr "tools/call");
            ("params", JObj [("name", JStr "calculator");
                             ("arguments", JObj [("b", JStr "0")])])]
           (Call_callTool (JStr "calculator") (JObj [("b", JStr "0")]))
           (JSError "Division by zero") tt
           [("jsonrpc", JStr "2.0"); ("id", JNum 1);
            ("error",
             JObj [("code", JNum (-32603)); ("message", JStr "Internal error");
                   ("data", JStr "Division by zero")])]
           [("code", JNum (-32603)); ("message", JStr "Internal error");
            ("data", JStr "Division by zero")]
           Default_onError);
    reflexivity.
Defined.

End WireSpec.
